(** * PayLagh: the club treasurer's chat bot (src/main.py)

    A shallow embedding of the ledger loader, the balance classifier and
    the reminder commands of [main.py], and the properties the
    specification states about them.

    Conventions.
    - A Python [str] is a [string] holding its UTF-8 bytes.  Substring
      search and replacement on UTF-8 bytes agree with the same operations
      on code points, because UTF-8 is self-synchronising.
    - A Python [float] is an IEEE-754 binary64 value, [spec_float] with
      precision 53 and maximal exponent 1024.
    - The module-level objects [PING_EXCLUDED_LIST], [PING_TIMES_PER_PLAYER],
      [PING_LIST] and [REMINDERS] are the fields of one [registry] record
      that every handler receives and returns.
    - A handler that raises returns [Py.Raise e] together with the registry
      as mutated up to the raise: Python does not roll the globals back.
    - What the platform delivers to a handler is an argument of it: the
      actor's real name ([users_info]), the roster ([users_list]) and the
      sheet ([read_csv]).  The reply a handler posts is its result.  Of the
      calls to the platform only [reminders_add] is modelled as able to
      raise.
    - The sheet is the data frame [read_csv] returns, with its four
      columns by position: a name cell is a text or the NaN of a blank
      cell, a money cell is a text or a value that is no [str].
    - Handlers run one after the other; requests served at the same time
      are not modelled. *)

From Stdlib Require Import ZArith List String Ascii Bool Lia.
From Stdlib Require Import Floats.SpecFloat.
From stdpp Require Import base option list gmap strings.

Import ListNotations.
Local Open Scope string_scope.
Local Open Scope list_scope.

(** ** Python values the handlers compare *)

Module Py.

(** The exceptions the modelled code can raise. *)
Inductive exn :=
| ValueError
| AttributeError
| KeyError
| SlackApiError.

(** The result of a computation that may raise. *)
Inductive result (A : Type) :=
| Ok (a : A)
| Raise (e : exn).
Arguments Ok {A} a.
Arguments Raise {A} e.

Definition bind {A B} (r : result A) (k : A -> result B) : result B :=
  match r with
  | Ok a => k a
  | Raise e => Raise e
  end.

(** The dynamically typed values that reach [==] and [in] in the
    handlers: [None], a [str], and a list of [str] (TREASURERS). *)
Inductive value :=
| VNone
| VStr (s : string)
| VList (l : list string).

(** [a == b]: values of different types are never equal. *)
Definition eqb (a b : value) : bool :=
  match a, b with
  | VNone, VNone => true
  | VStr s, VStr t => String.eqb s t
  | VList l, VList k => bool_decide (l = k)
  | _, _ => false
  end.

(** [a in l] for a list of strings [l]. *)
Definition contains (a : value) (l : list string) : bool :=
  existsb (fun t => eqb a (VStr t)) l.

(** [str(v)] for the values an f-string interpolates. *)
Definition str_of_name (v : option string) : string :=
  match v with
  | Some s => s
  | None => "None"
  end.

Definition of_name (v : option string) : value :=
  match v with
  | Some s => VStr s
  | None => VNone
  end.

(** *** [str.replace] *)

(** [replace_from old new skip s]: the scan of [s] from the left, with
    [skip] characters of the current match still to drop. *)
Fixpoint replace_from (old new : string) (skip : nat) (s : string) : string :=
  match s with
  | EmptyString => EmptyString
  | String c s' =>
      match skip with
      | S k => replace_from old new k s'
      | O =>
          if String.prefix old s
          then new +:+ replace_from old new (Nat.pred (String.length old)) s'
          else String c (replace_from old new 0 s')
      end
  end.

(** [s.replace(old, new)] for a non-empty [old]: every non-overlapping
    occurrence, found from the left, is replaced. *)
Definition replace (old new s : string) : string :=
  replace_from old new 0 s.

(** [s.split(sep)[0]] for a one-character [sep]: the part of [s] before
    the first separator, the whole of [s] when there is none. *)
Fixpoint first_field (sep : ascii) (s : string) : string :=
  match s with
  | EmptyString => EmptyString
  | String c s' =>
      if Ascii.eqb c sep then EmptyString else String c (first_field sep s')
  end.

(** [s.split(sep)] for a one-character [sep]. *)
Fixpoint split (sep : ascii) (s : string) : list string :=
  match s with
  | EmptyString => [EmptyString]
  | String c s' =>
      if Ascii.eqb c sep then EmptyString :: split sep s'
      else match split sep s' with
           | [] => [String c EmptyString]
           | f :: fs => String c f :: fs
           end
  end.

(** The last character of a text, [None] for the empty text. *)
Fixpoint last_char (s : string) : option ascii :=
  match s with
  | EmptyString => None
  | String c s' =>
      match last_char s' with
      | None => Some c
      | Some d => Some d
      end
  end.

End Py.

(** ** Python's [float]: binary64 values and the [float(str)] conversion *)

Module PyFloat.

Definition prec : Z := 53.
Definition emax : Z := 1024.

Definition zero : spec_float := S754_zero false.

(** [x < 0] and [x > 0].  Comparing a float with the int literal [0] is
    the IEEE comparison with [0.0]; every comparison with a NaN is
    false. *)
Definition lt0 (x : spec_float) : bool := SFltb x zero.
Definition gt0 (x : spec_float) : bool := SFltb zero x.
Definition eq0 (x : spec_float) : bool := SFeqb x zero.

Definition is_nan (x : spec_float) : bool :=
  match x with
  | S754_nan => true
  | _ => false
  end.

(** The binary64 value nearest (ties to even) to [m * 10 ^ e10], with
    the sign [neg]; overflow gives an infinity and underflow a
    subnormal or a zero, as C's [strtod] does. *)
Definition of_decimal (neg : bool) (m : Z) (e10 : Z) : spec_float :=
  match m with
  | Zpos p =>
      if (0 <=? e10)%Z
      then binary_normalize prec emax
             (if neg then Z.opp (Zpos p * 10 ^ e10) else Zpos p * 10 ^ e10)%Z
             0 neg
      else SFdiv prec emax
             (S754_finite neg p 0)
             (S754_finite false (Z.to_pos (10 ^ (- e10))) 0)
  | _ => S754_zero neg
  end.

Definition is_digit (c : ascii) : bool :=
  let n := nat_of_ascii c in (48 <=? n)%nat && (n <=? 57)%nat.

(** [Py_ISSPACE]: space, and the characters 9 to 13. *)
Definition is_space (c : ascii) : bool :=
  let n := nat_of_ascii c in
  (n =? 32)%nat || ((9 <=? n)%nat && (n <=? 13)%nat).

Definition is_underscore (c : ascii) : bool := (nat_of_ascii c =? 95)%nat.

(** ASCII lower-casing, for the case-insensitive [inf] and [nan]. *)
Definition lower (c : ascii) : ascii :=
  let n := nat_of_ascii c in
  if (65 <=? n)%nat && (n <=? 90)%nat then ascii_of_nat (n + 32) else c.

(** The value of a run of decimal digits, most significant first. *)
Definition digits_value (ds : list ascii) : Z :=
  fold_left (fun acc c => (10 * acc + Z.of_nat (nat_of_ascii c - 48))%Z) ds 0%Z.

(** The underscore pass of [_Py_string_to_number_with_underscores]: an
    underscore must follow a digit and be followed by a digit; the
    underscores are dropped.  [prev] is the previous character. *)
Fixpoint drop_underscores (prev : option ascii) (cs : list ascii)
  : option (list ascii) :=
  match cs with
  | [] =>
      match prev with
      | Some p => if is_underscore p then None else Some []
      | None => Some []
      end
  | c :: cs' =>
      if is_underscore c then
        match prev with
        | Some p => if is_digit p then drop_underscores (Some c) cs' else None
        | None => None
        end
      else
        let bad :=
          match prev with
          | Some p => is_underscore p && negb (is_digit c)
          | None => false
          end in
        if bad then None
        else (fun r => c :: r) <$> drop_underscores (Some c) cs'
  end.

Fixpoint skip_spaces (cs : list ascii) : list ascii :=
  match cs with
  | c :: cs' => if is_space c then skip_spaces cs' else cs
  | [] => []
  end.

(** Leading and trailing white space is ignored. *)
Definition strip (cs : list ascii) : list ascii :=
  rev (skip_spaces (rev (skip_spaces cs))).

(** An optional sign: [true] for a minus. *)
Definition take_sign (cs : list ascii) : bool * list ascii :=
  match cs with
  | c :: cs' =>
      if (nat_of_ascii c =? 45)%nat then (true, cs')
      else if (nat_of_ascii c =? 43)%nat then (false, cs')
      else (false, cs)
  | [] => (false, [])
  end.

(** The longest prefix of digits, and what follows it. *)
Fixpoint take_digits (cs : list ascii) : list ascii * list ascii :=
  match cs with
  | c :: cs' =>
      if is_digit c
      then let '(ds, rest) := take_digits cs' in (c :: ds, rest)
      else ([], cs)
  | [] => ([], [])
  end.

(** The exponent part, after the [e]: an optional sign and at least one
    digit, up to the end of the text. *)
Definition exponent (cs : list ascii) : option Z :=
  let '(neg, r) := take_sign cs in
  match r with
  | [] => None
  | _ :: _ =>
      if forallb is_digit r
      then Some (if neg then Z.opp (digits_value r) else digits_value r)
      else None
  end.

(** The grammar of [float(str)] after the sign:
    [inf], [infinity] and [nan] in any letter case, or
    digits [.] digits with at least one digit, and an optional
    exponent. *)
Definition unsigned (neg : bool) (cs : list ascii) : option spec_float :=
  let low := string_of_list_ascii (map lower cs) in
  if String.eqb low "inf" || String.eqb low "infinity" then
    Some (S754_infinity neg)
  else if String.eqb low "nan" then Some S754_nan
  else
    let '(ip, r1) := take_digits cs in
    let '(fp, r2) :=
      match r1 with
      | c :: r => if (nat_of_ascii c =? 46)%nat then take_digits r else ([], r1)
      | [] => ([], r1)
      end in
    match ip ++ fp with
    | [] => None
    | _ :: _ =>
        let m := digits_value (ip ++ fp) in
        let scale := Z.opp (Z.of_nat (length fp)) in
        match r2 with
        | [] => Some (of_decimal neg m scale)
        | c :: r3 =>
            if (nat_of_ascii (lower c) =? 101)%nat
            then (fun e => of_decimal neg m (e + scale)%Z) <$> exponent r3
            else None
        end
    end.

(** *** The pass of [float(str)] over a text that is not ASCII

    A [str] is a sequence of code points; here it is held as its UTF-8
    bytes, so the bytes are decoded first.  CPython
    ([_PyUnicode_TransformDecimalAndSpaceToASCII]) returns an ASCII text as
    it is; in any other text it keeps every code point below 127, turns a
    white-space character into a space and a decimal digit of any script
    into the ASCII digit of its value, and at the first other character
    writes a question mark and drops the rest.  The two tables are those of
    Unicode 14.0 (CPython 3.11). *)

(** A number that is no code point, for bytes that are not UTF-8. *)
Definition not_a_code_point : N := 0x110000.

(** The code points of a UTF-8 text.  [need] is the number of continuation
    bytes still to come for the current character, [acc] the bits read of
    it, and [low] the least code point its length may encode. *)
Fixpoint decode_utf8 (need : nat) (acc low : N) (bs : list ascii) : list N :=
  match bs with
  | [] =>
      match need with
      | O => []
      | S _ => [not_a_code_point]
      end
  | b :: rest =>
      let n := N_of_ascii b in
      match need with
      | O =>
          if (n <? 0x80)%N then n :: decode_utf8 0 0 0 rest
          else if (0xC2 <=? n)%N && (n <=? 0xDF)%N
          then decode_utf8 1 (N.land n 0x1F) 0x80 rest
          else if (0xE0 <=? n)%N && (n <=? 0xEF)%N
          then decode_utf8 2 (N.land n 0x0F) 0x800 rest
          else if (0xF0 <=? n)%N && (n <=? 0xF4)%N
          then decode_utf8 3 (N.land n 0x07) 0x10000 rest
          else not_a_code_point :: decode_utf8 0 0 0 rest
      | S k =>
          if (0x80 <=? n)%N && (n <=? 0xBF)%N then
            let acc' := (acc * 64 + N.land n 0x3F)%N in
            match k with
            | O =>
                (if (low <=? acc')%N && (acc' <=? 0x10FFFF)%N
                    && negb ((0xD800 <=? acc')%N && (acc' <=? 0xDFFF)%N)
                 then acc' else not_a_code_point)
                  :: decode_utf8 0 0 0 rest
            | S _ => decode_utf8 k acc' low rest
            end
          else not_a_code_point :: decode_utf8 0 0 0 rest
      end
  end.

(** The white-space characters from code point 127 on
    ([Py_UNICODE_ISSPACE]). *)
Definition unicode_spaces : list N :=
  [
    0x85; 0xa0; 0x1680; 0x2000; 0x2001; 0x2002; 0x2003; 0x2004; 0x2005;
    0x2006; 0x2007; 0x2008; 0x2009; 0x200a; 0x2028; 0x2029; 0x202f;
    0x205f; 0x3000
  ]%N.

(** The digit zero of every run of ten decimal digits from code point 127
    on ([Py_UNICODE_TODECIMAL]): the digit of value [d] of a run is the
    code point of its zero plus [d]. *)
Definition decimal_zeros : list N :=
  [
    0x660; 0x6f0; 0x7c0; 0x966; 0x9e6; 0xa66; 0xae6; 0xb66; 0xbe6; 0xc66;
    0xce6; 0xd66; 0xde6; 0xe50; 0xed0; 0xf20; 0x1040; 0x1090; 0x17e0;
    0x1810; 0x1946; 0x19d0; 0x1a80; 0x1a90; 0x1b50; 0x1bb0; 0x1c40;
    0x1c50; 0xa620; 0xa8d0; 0xa900; 0xa9d0; 0xa9f0; 0xaa50; 0xabf0;
    0xff10; 0x104a0; 0x10d30; 0x11066; 0x110f0; 0x11136; 0x111d0; 0x112f0;
    0x11450; 0x114d0; 0x11650; 0x116c0; 0x11730; 0x118e0; 0x11950;
    0x11c50; 0x11d50; 0x11da0; 0x16a60; 0x16ac0; 0x16b50; 0x1d7ce;
    0x1d7d8; 0x1d7e2; 0x1d7ec; 0x1d7f6; 0x1e140; 0x1e2f0; 0x1e950; 0x1fbf0
  ]%N.

Definition is_unicode_space (ch : N) : bool :=
  existsb (N.eqb ch) unicode_spaces.

Definition decimal_value (ch : N) : option N :=
  match List.find (fun z => (z <=? ch)%N && (ch <? z + 10)%N) decimal_zeros with
  | Some z => Some (ch - z)%N
  | None => None
  end.

(** The pass over the code points of a text that is not ASCII. *)
Fixpoint to_ascii (chs : list N) : list ascii :=
  match chs with
  | [] => []
  | ch :: rest =>
      if (ch <? 127)%N then ascii_of_N ch :: to_ascii rest
      else if is_unicode_space ch then " "%char :: to_ascii rest
      else
        match decimal_value ch with
        | Some d => ascii_of_N (48 + d) :: to_ascii rest
        | None => ["?"%char]
        end
  end.

(** The characters [float] parses: the text itself when it is ASCII, else
    what the pass makes of it. *)
Definition ascii_text (s : string) : list ascii :=
  let chs := decode_utf8 0 0 0 (list_ascii_of_string s) in
  if forallb (fun ch => (ch <? 0x80)%N) chs
  then list_ascii_of_string s
  else to_ascii chs.

(** [float(s)] for a [str]: the pass above, the underscore pass, then the
    number between optional white space. *)
Definition of_string (s : string) : Py.result spec_float :=
  match drop_underscores None (ascii_text s) with
  | None => Py.Raise Py.ValueError
  | Some cs =>
      let '(neg, r) := take_sign (strip cs) in
      match unsigned neg r with
      | Some x => Py.Ok x
      | None => Py.Raise Py.ValueError
      end
  end.

End PyFloat.

(** ** The ledger: rows of the spreadsheet and [Person] records *)

Module Ledger.

(** [@dataclass class Person]. *)
Record Person := {
  name : string;
  current_balance : spec_float;
  total_debit : spec_float;
  total_paid : spec_float;
}.

(** A money cell of the data frame as pandas delivers it: the text of the
    cell, or a value that is not a [str] (pandas reads a blank cell, and a
    column of plain numbers, as floats). *)
Inductive cell :=
| Text (s : string)
| NotText.

(** A name cell of the data frame: the text of the cell, or the float NaN
    that pandas puts in a blank cell.  (A name column that holds no text at
    all, which pandas reads as a column of numbers, is not modelled.) *)
Inductive name_cell :=
| Name (s : string)
| Blank.

(** [a == b] on name cells: texts are compared; NaN is equal to nothing,
    itself included. *)
Definition same_name (a b : name_cell) : bool :=
  match a, b with
  | Name s, Name t => String.eqb s t
  | _, _ => false
  end.

(** One row of the data frame, by column position: name, balance,
    total debit, total paid. *)
Record row := {
  row_name : name_cell;
  row_balance : cell;
  row_debit : cell;
  row_paid : cell;
}.

(** A record as [process_details] builds it.  [Person] declares
    [name: str]; for a blank name cell the code builds
    [Person(nan, 0.0, 0.0, 0.0)], whose name is no [str]: [Nameless]. *)
Inductive loaded :=
| WithName (p : Person)
| Nameless.

(** The name and the balance a loaded record holds. *)
Definition loaded_name (l : loaded) : name_cell :=
  match l with
  | WithName p => Name (name p)
  | Nameless => Blank
  end.

Definition loaded_balance (l : loaded) : spec_float :=
  match l with
  | WithName p => current_balance p
  | Nameless => PyFloat.zero
  end.

(** The records of a load that have a name.  A nameless record has the
    balance 0.0 and a name equal to no name, so the tests
    [current_balance < 0], [current_balance > 0] and [user.name == ...]
    all fail on it: the filters of the handlers keep none, and they are
    applied here to the records with a name. *)
Definition with_names (people : list loaded) : list Person :=
  omap (fun l => match l with WithName p => Some p | Nameless => None end) people.

(** [float] of the cell's text with every [€] and every comma removed by
    the two [replace] calls.  A cell that is not a
    [str] has no [replace]. *)
Definition normalize_text (s : string) : Py.result spec_float :=
  PyFloat.of_string (Py.replace "," EmptyString (Py.replace "€" EmptyString s)).

Definition normalize (c : cell) : Py.result spec_float :=
  match c with
  | Text s => normalize_text s
  | NotText => Py.Raise Py.AttributeError
  end.

(** [process_details(name, data)]: the first row of [data] whose name
    column equals [name]; a zero-balance person when there is none.  (The
    second emptiness test of the code, [len(person_data) > 0], can not fail
    after the first.)  The three conversions are evaluated in the order
    balance, debit, paid, and the first that raises ends the call.  For the
    name NaN no row is selected, whatever the rows are, and the record is
    the nameless one. *)
Definition process_details (n : name_cell) (data : list row) : Py.result loaded :=
  match n with
  | Blank => Py.Ok Nameless
  | Name s =>
      match List.filter (fun r => same_name (row_name r) (Name s)) data with
      | [] => Py.Ok (WithName {| name := s; current_balance := PyFloat.zero;
                                 total_debit := PyFloat.zero;
                                 total_paid := PyFloat.zero |})
      | r :: _ =>
          Py.bind (normalize (row_balance r)) (fun balance =>
          Py.bind (normalize (row_debit r)) (fun debit =>
          Py.bind (normalize (row_paid r)) (fun paid =>
          Py.Ok (WithName {| name := s; current_balance := balance;
                             total_debit := debit; total_paid := paid |}))))
      end
  end.

(** [get_spreadsheet_details()[:-3]]: the last three rows are dropped. *)
Definition drop_footer (sheet : list row) : list row :=
  firstn (length sheet - 3) sheet.

(** The loop of [get_people_data] over the name column: [peoples] is the
    list built so far; the first conversion that raises ends the loop. *)
Fixpoint people_loop (names : list name_cell) (data : list row)
    (peoples : list loaded) : Py.result (list loaded) :=
  match names with
  | [] => Py.Ok peoples
  | n :: names' =>
      match process_details n data with
      | Py.Ok p => people_loop names' data (peoples ++ [p])
      | Py.Raise e => Py.Raise e
      end
  end.

(** [get_people_data()], given the sheet that was fetched. *)
Definition get_people_data (sheet : list row) : Py.result (list loaded) :=
  let spreadsheet_data := drop_footer sheet in
  people_loop (map row_name spreadsheet_data) spreadsheet_data [].

(** [get_all_debtors(people)]. *)
Definition get_all_debtors (people : list Person) : list Person :=
  List.filter (fun person => PyFloat.lt0 (current_balance person)) people.

(** [get_all_prepaid(people)]. *)
Definition get_all_prepaid (people : list Person) : list Person :=
  List.filter (fun person => PyFloat.gt0 (current_balance person)) people.

(** The people in neither list: the balance is not below and not above
    zero. *)
Definition get_all_settled (people : list Person) : list Person :=
  List.filter (fun person => negb (PyFloat.lt0 (current_balance person))
                             && negb (PyFloat.gt0 (current_balance person)))
              people.

(** A row one of whose money cells does not convert: the cell is no text,
    or [float] rejects what the two [replace] calls leave of it. *)
Definition malformed (r : row) : Prop :=
  exists e, normalize (row_balance r) = Py.Raise e \/
            normalize (row_debit r) = Py.Raise e \/
            normalize (row_paid r) = Py.Raise e.

End Ledger.

(** ** The chat platform: roster members and reminders *)

Module Slack.

(** A member of [client.users_list()]: the keys the code reads.
    [real_name] may be absent, and [.get] then gives [None]. *)
Record member := {
  real_name : option string;
  id : string;
}.

(** The arguments of one [reminders_add(text=, time=, user=)] call. *)
Record request := {
  text : string;
  time : string;
  user : string;
}.

End Slack.

Module Reminder.

(** [@dataclass class Reminder]. *)
Record t := {
  name : string;
  text : string;
  id : string;
  recurrence : string;
}.

Definition request (r : t) : Slack.request :=
  {| Slack.text := text r; Slack.time := recurrence r; Slack.user := id r |}.

End Reminder.

(** ** The handlers of [main.py] *)

Module Bot.

Import Ledger.

Definition nl : string := String (ascii_of_nat 10) EmptyString.

Definition TEAM : string := "Ranelagh".
Definition TREASURERS : list string :=
  ["Noah Coyne-Tyrrell"; "Louis Stewart"; "Daniel Collins"].
Definition TREASURER : string := "Louis Stewart".
Definition DEFAULT_TIME : string := "next Monday at 15:00".

(** [str(l)] for a list of names that hold no quote, backslash or
    control character, as the three of [TREASURERS]. *)
Fixpoint repr_items (l : list string) : string :=
  match l with
  | [] => EmptyString
  | [s] => "'" +:+ s +:+ "'"
  | s :: l' => "'" +:+ s +:+ "', " +:+ repr_items l'
  end.
Definition repr_names (l : list string) : string := "[" +:+ repr_items l +:+ "]".

(** The reply to an actor who may not run a command. *)
Definition denial : string :=
  "This command can only be run by the " +:+ TEAM +:+ " TREASURERS, "
  +:+ "please contact *" +:+ repr_names TREASURERS
  +:+ "* if you think you should be able to run it.".

(** [user_real_name in TREASURERS]. *)
Definition is_treasurer (user_real_name : option string) : bool :=
  Py.contains (Py.of_name user_real_name) TREASURERS.

(** [user_real_name == TREASURERS], the test of [ping_remove_players]
    and [ping_adjust_time]: a name compared with the whole list. *)
Definition equals_treasurers (user_real_name : option string) : bool :=
  Py.eqb (Py.of_name user_real_name) (Py.VList TREASURERS).

(** [slack_person.get("real_name") == n]. *)
Definition named (n : string) (slack_person : Slack.member) : bool :=
  Py.eqb (Py.of_name (Slack.real_name slack_person)) (Py.VStr n).

Section Handlers.

(** [str(x)] of a float, as an f-string prints it. *)
Variable repr_float : spec_float -> string.

(** The handle [reminders_add] returns (a [SlackResponse], never
    [None]), and the service itself: its answer to a request, given the
    requests made before; [None] when the call raises. *)
Variable Handle : Type.
Variable reminders_add : list Slack.request -> Slack.request -> option Handle.

(** The module-level objects. *)
Record registry := {
  PING_EXCLUDED_LIST : list string;
  PING_TIMES_PER_PLAYER : gmap string string;
  PING_LIST : list (Person * Slack.member);
  REMINDERS : gmap string Handle;
}.

(** The registry when the module is loaded. *)
Definition startup : registry :=
  {| PING_EXCLUDED_LIST := [];
     PING_TIMES_PER_PLAYER := {[ TREASURER := "next Monday at 14:00" ]};
     PING_LIST := [];
     REMINDERS := ∅ |}.

(** One [reminders_add] call as the service saw it: the reminder it was
    made for, and the handle returned, [None] when it raised. *)
Definition call : Type := Reminder.t * option Handle.

Definition requests (log : list call) : list Slack.request :=
  map (fun c => Reminder.request (fst c)) log.

(** The reminders the service created, by person name. *)
Definition created (log : list call) : list (string * Handle) :=
  omap (fun c => (fun h => (Reminder.name (fst c), h)) <$> snd c) log.

(** *** [build_reminders] *)

Definition reminder_text (debtor : Person) : string :=
  "You owe " +:+ TEAM +:+ " " +:+ repr_float (current_balance debtor)
  +:+ " Euros. " +:+ nl
  +:+ "Please use /paywhere to pay or contact " +:+ repr_names TREASURERS.

(** The loop over [PING_LIST], threading [PING_TIMES_PER_PLAYER]: a
    missing or empty schedule is first set to [DEFAULT_TIME]. *)
Fixpoint build_reminders (ping_list : list (Person * Slack.member))
    (times : gmap string string) : list Reminder.t * gmap string string :=
  match ping_list with
  | [] => ([], times)
  | (debtor, person) :: rest =>
      let times1 :=
        match times !! name debtor with
        | Some t => if String.eqb t EmptyString
                    then <[name debtor := DEFAULT_TIME]> times else times
        | None => <[name debtor := DEFAULT_TIME]> times
        end in
      let recurrence := default DEFAULT_TIME (times1 !! name debtor) in
      let reminder :=
        {| Reminder.name := name debtor;
           Reminder.text := reminder_text debtor;
           Reminder.id := Slack.id person;
           Reminder.recurrence := recurrence |} in
      let '(reminders, times2) := build_reminders rest times1 in
      (reminder :: reminders, times2)
  end.

(** [PING_TIMES_PER_PLAYER] after the first two statements of one round
    of that loop, for the debtor named [n]. *)
Definition with_default (times : gmap string string) (n : string)
  : gmap string string :=
  match times !! n with
  | Some t => if String.eqb t EmptyString then <[n := DEFAULT_TIME]> times else times
  | None => <[n := DEFAULT_TIME]> times
  end.

(** *** [ping_players] *)

(** The loop that correlates the debtors with the roster: the first
    member with the debtor's name goes to [PING_LIST] with the debtor,
    a debtor with no such member to [players_unreachable]. *)
Fixpoint correlate (debtors : list Person) (slack_people : list Slack.member)
    (ping_list : list (Person * Slack.member)) (players_unreachable : list Person)
  : list (Person * Slack.member) * list Person :=
  match debtors with
  | [] => (ping_list, players_unreachable)
  | person :: rest =>
      match List.find (named (name person)) slack_people with
      | Some slack_person =>
          correlate rest slack_people (ping_list ++ [(person, slack_person)])
                    players_unreachable
      | None =>
          correlate rest slack_people ping_list (players_unreachable ++ [person])
      end
  end.

(** What the reminder loop has done so far: [REMINDERS], the calls made
    to the service, the two result lists, and the exception that ended
    the loop, if one did. *)
Record progress := {
  reminders_now : gmap string Handle;
  calls_now : list call;
  players_being_reminded : list Reminder.t;
  players_already_reminded : list string;
  raised : option Py.exn;
}.

(** The loop over the reminders.  An excluded name is passed over; a
    name with an entry in [REMINDERS] is noted as already reminded; for
    any other name the service is called and the handle stored.  A call
    that raises ends the loop: nothing in [ping_players] catches it. *)
Fixpoint remind (reminders : list Reminder.t) (excluded : list string)
    (st : progress) : progress :=
  match reminders with
  | [] => st
  | reminder :: rest =>
      if bool_decide (Reminder.name reminder ∈ excluded) then
        remind rest excluded st
      else
        match reminders_now st !! Reminder.name reminder with
        | None =>
            let answer :=
              reminders_add (requests (calls_now st)) (Reminder.request reminder) in
            match answer with
            | Some reminder_id =>
                remind rest excluded
                  {| reminders_now :=
                       <[Reminder.name reminder := reminder_id]> (reminders_now st);
                     calls_now := calls_now st ++ [(reminder, Some reminder_id)];
                     players_being_reminded :=
                       players_being_reminded st ++ [reminder];
                     players_already_reminded := players_already_reminded st;
                     raised := None |}
            | None =>
                {| reminders_now := reminders_now st;
                   calls_now := calls_now st ++ [(reminder, None)];
                   players_being_reminded := players_being_reminded st;
                   players_already_reminded := players_already_reminded st;
                   raised := Some Py.SlackApiError |}
            end
        | Some _ =>
            remind rest excluded
              {| reminders_now := reminders_now st;
                 calls_now := calls_now st;
                 players_being_reminded := players_being_reminded st;
                 players_already_reminded :=
                   players_already_reminded st ++ [Reminder.name reminder];
                 raised := None |}
        end
  end.

(** The three parts of the reply of a toggle-on run. *)
Definition reminded_lines (l : list Reminder.t) : string :=
  fold_left (fun text person =>
               text +:+ "Reminded " +:+ Reminder.name person +:+ ": "
               +:+ Py.first_field (ascii_of_nat 10) (Reminder.text person) +:+ nl)
            l EmptyString.

Definition skipped_lines (l : list string) : string :=
  fold_left (fun text person => text +:+ "Skipped reminding " +:+ person +:+ nl)
            l EmptyString.

Definition unreachable_lines (l : list Person) : string :=
  fold_left (fun text person =>
               text +:+ "Couldn't find this person " +:+ name person
               +:+ " but they owe " +:+ repr_float (current_balance person) +:+ nl)
            l EmptyString.

(** A toggle-on run, after the ledger was loaded: the registry and the
    service log it leaves, the result lists, and whether it raised. *)
Record run := {
  registry_after : registry;
  log_after : list call;
  being_reminded : list Reminder.t;
  already_reminded : list string;
  unreachable : list Person;
  failure : option Py.exn;
}.

Definition toggle_on (people : list Person) (slack_people : list Slack.member)
    (reg : registry) (log : list call) : run :=
  let debtors := get_all_debtors people in
  let '(ping_list, players_unreachable) :=
    correlate debtors slack_people (PING_LIST reg) [] in
  let '(reminders, times) := build_reminders ping_list (PING_TIMES_PER_PLAYER reg) in
  let st :=
    remind reminders (PING_EXCLUDED_LIST reg)
      {| reminders_now := REMINDERS reg; calls_now := log;
         players_being_reminded := []; players_already_reminded := [];
         raised := None |} in
  {| registry_after :=
       {| PING_EXCLUDED_LIST := PING_EXCLUDED_LIST reg;
          PING_TIMES_PER_PLAYER := times;
          PING_LIST := ping_list;
          REMINDERS := reminders_now st |};
     log_after := calls_now st;
     being_reminded := players_being_reminded st;
     already_reminded := players_already_reminded st;
     unreachable := players_unreachable;
     failure := raised st |}.

Definition summary (r : run) : string :=
  reminded_lines (being_reminded r) +:+ nl
  +:+ skipped_lines (already_reminded r) +:+ nl
  +:+ unreachable_lines (unreachable r) +:+ nl.

(** The registry after the four [clear()] calls of toggle-off. *)
Definition cleared : registry :=
  {| PING_EXCLUDED_LIST := []; PING_TIMES_PER_PLAYER := ∅;
     PING_LIST := []; REMINDERS := ∅ |}.

(** [ping_players]: the command [/ping] with its text [toggle], run by
    [user_real_name] on the sheet and the roster the two services
    deliver.  The result is the registry, the service log and the reply
    sent, or the exception that left the handler.  [get_all_debtors]
    keeps no nameless record, so it is applied to the records with a name
    ([with_names]). *)
Definition ping_players (user_real_name : option string) (toggle : string)
    (sheet : list row) (slack_people : list Slack.member)
    (reg : registry) (log : list call)
  : registry * list call * Py.result string :=
  if is_treasurer user_real_name then
    if String.eqb toggle "on" then
      match get_people_data sheet with
      | Py.Raise e => (reg, log, Py.Raise e)
      | Py.Ok people =>
          let r := toggle_on (with_names people) slack_people reg log in
          (registry_after r, log_after r,
           match failure r with
           | Some e => Py.Raise e
           | None => Py.Ok (summary r)
           end)
      end
    else if String.eqb toggle "off" then
      (cleared, log, Py.Ok EmptyString)
    else (reg, log, Py.Ok EmptyString)
  else (reg, log, Py.Ok denial).

(** [REMINDERS.get(name, None) is not None]: the person has an active
    reminder. *)
Definition has_active (reg : registry) (n : string) : bool :=
  match REMINDERS reg !! n with
  | Some _ => true
  | None => false
  end.

(** *** [ping_add_players], [ping_remove_players], [ping_adjust_time] *)

(** [ping_add_players]: for every member with the given name, the name
    is filtered out of [PING_EXCLUDED_LIST]. *)
Definition ping_add_players (user_real_name : option string)
    (person_to_add : string) (slack_people : list Slack.member)
    (reg : registry) : registry * Py.result string :=
  if is_treasurer user_real_name then
    let excluded :=
      fold_left (fun excluded person =>
                   if named person_to_add person
                   then List.filter (fun p => negb (String.eqb p person_to_add))
                                    excluded
                   else excluded)
                slack_people (PING_EXCLUDED_LIST reg) in
    ({| PING_EXCLUDED_LIST := excluded;
        PING_TIMES_PER_PLAYER := PING_TIMES_PER_PLAYER reg;
        PING_LIST := PING_LIST reg;
        REMINDERS := REMINDERS reg |},
     Py.Ok ("Adding " +:+ person_to_add +:+ " to the remind list." +:+ nl))
  else (reg, Py.Ok denial).

(** [ping_remove_players]: under its test of the actor, the name is
    appended to [PING_EXCLUDED_LIST] once for every member with that
    name. *)
Definition ping_remove_players (user_real_name : option string)
    (person_to_skip : string) (slack_people : list Slack.member)
    (reg : registry) : registry * Py.result string :=
  if equals_treasurers user_real_name then
    let excluded :=
      fold_left (fun excluded person =>
                   if named person_to_skip person
                   then excluded ++ [person_to_skip] else excluded)
                slack_people (PING_EXCLUDED_LIST reg) in
    ({| PING_EXCLUDED_LIST := excluded;
        PING_TIMES_PER_PLAYER := PING_TIMES_PER_PLAYER reg;
        PING_LIST := PING_LIST reg;
        REMINDERS := REMINDERS reg |},
     Py.Ok ("Skipping " +:+ person_to_skip +:+ " from future reminders " +:+ nl))
  else (reg, Py.Ok denial).

(** [ping_adjust_time]: under its test of the actor, [info] is split at
    the commas into a name and a time (any other number of fields
    raises), the time is stored when the roster has the name, and the
    reply reads the stored time back (a missing key raises). *)
Definition ping_adjust_time (user_real_name : option string)
    (info : string) (slack_people : list Slack.member)
    (reg : registry) : registry * Py.result string :=
  if equals_treasurers user_real_name then
    match Py.split "," info with
    | [n; t] =>
        let times :=
          if existsb (named n) slack_people
          then <[n := t]> (PING_TIMES_PER_PLAYER reg)
          else PING_TIMES_PER_PLAYER reg in
        ({| PING_EXCLUDED_LIST := PING_EXCLUDED_LIST reg;
            PING_TIMES_PER_PLAYER := times;
            PING_LIST := PING_LIST reg;
            REMINDERS := REMINDERS reg |},
         match times !! n with
         | Some stored =>
             Py.Ok ("adjusted reminders to *" +:+ stored +:+ "* for _" +:+ n +:+ "_.")
         | None => Py.Raise Py.KeyError
         end)
    | _ => (reg, Py.Raise Py.ValueError)
    end
  else (reg, Py.Ok denial).

(** *** [owe] *)

Definition debt_line (u : Person) : string :=
  "*" +:+ name u +:+ "* needs to pay *"
  +:+ repr_float (SFabs (current_balance u)) +:+ "* Euros" +:+ nl.

Definition prepaid_line (u : Person) : string :=
  "*" +:+ name u +:+ "* paid *"
  +:+ repr_float (current_balance u) +:+ "* Euros in advance" +:+ nl.

Definition owes_no_money (user_real_name : option string) : string :=
  "The user *" +:+ Py.str_of_name user_real_name +:+ "* owes " +:+ TEAM
  +:+ " *no* money.".

Definition search_went_wrong : string :=
  "The search you performed went wrong, please contact "
  +:+ repr_names TREASURERS +:+ " for troubleshooting".

(** [owe]: the reply to the command [/owe] run by [user_real_name] on
    the sheet fetched.  The locals [response], [flagged], [hits] and
    [breakdown] are those of the code.  The two filters keep no nameless
    record, so they are applied to the records with a name
    ([with_names]). *)
Definition owe (user_real_name : option string) (sheet : list row)
  : Py.result string :=
  let hits := 0%nat in
  match get_people_data sheet with
  | Py.Raise e => Py.Raise e
  | Py.Ok people =>
      let debtors := get_all_debtors (with_names people) in
      let prepaid := get_all_prepaid (with_names people) in
      let '(response, breakdown, flagged) :=
        if is_treasurer user_real_name then
          (fold_left (fun response u => response +:+ debt_line u) debtors EmptyString
           +:+ nl
           +:+ fold_left (fun response u => response +:+ prepaid_line u)
                 prepaid EmptyString,
           EmptyString, false)
        else
          let mine (u : Person) :=
            Py.eqb (Py.VStr (name u)) (Py.of_name user_real_name) in
          let debt := List.filter mine debtors in
          let prepaid := List.filter mine prepaid in
          match debt with
          | u :: _ => (EmptyString, debt_line u, false)
          | [] =>
              match prepaid with
              | u :: _ => (EmptyString, prepaid_line u, false)
              | [] => (EmptyString, EmptyString, true)
              end
          end in
      let response :=
        response +:+ breakdown
        +:+ "Use the _/paywhere_ command to find out how to pay." in
      Py.Ok (if flagged
             then if (hits =? 0)%nat then owes_no_money user_real_name
                  else search_went_wrong
             else response)
  end.

(** *** [player_finance_breakdown] *)

Definition not_in_the_book (user_real_name : option string) : string :=
  "User " +:+ Py.str_of_name user_real_name +:+ " could not be found in "
  +:+ TEAM +:+ "'s financial book, "
  +:+ "please contact *" +:+ repr_names TREASURERS +:+ "* for further details.".

(** [player_finance_breakdown]: the reply to the command [/breakdown].
    For an actor with a record the code next reads [user.membership]; the
    dataclass [Person] has the four fields [name], [current_balance],
    [total_debit] and [total_paid] and no other, so that read raises
    before anything of the breakdown is built.  The test
    [user.name == user_real_name] fails on a nameless record, so the
    filter is applied to the records with a name ([with_names]). *)
Definition player_finance_breakdown (user_real_name : option string)
    (sheet : list row) : Py.result string :=
  match get_people_data sheet with
  | Py.Raise e => Py.Raise e
  | Py.Ok people =>
      let user :=
        List.filter (fun u => Py.eqb (Py.VStr (name u)) (Py.of_name user_real_name))
                    (with_names people) in
      match user with
      | [] => Py.Ok (not_in_the_book user_real_name)
      | _ :: _ => Py.Raise Py.AttributeError
      end
  end.

(** *** Sequences of commands *)

(** One command as it reaches a handler: the actor's real name, the
    text of the command, and what the ledger and the roster deliver
    at that moment. *)
Inductive command :=
| Ping (user_real_name : option string) (toggle : string)
       (sheet : list row) (slack_people : list Slack.member)
| PingAdd (user_real_name : option string) (person_to_add : string)
          (slack_people : list Slack.member)
| PingRemove (user_real_name : option string) (person_to_skip : string)
             (slack_people : list Slack.member)
| PingAdjustTime (user_real_name : option string) (info : string)
                 (slack_people : list Slack.member).

Definition is_toggle_off (c : command) : bool :=
  match c with
  | Ping _ toggle _ _ => String.eqb toggle "off"
  | _ => false
  end.

(** The registry and the service log after one command; the reply is
    dropped. *)
Definition exec (c : command) (w : registry * list call)
  : registry * list call :=
  match c with
  | Ping a toggle sheet slack_people =>
      fst (ping_players a toggle sheet slack_people (fst w) (snd w))
  | PingAdd a person slack_people =>
      (fst (ping_add_players a person slack_people (fst w)), snd w)
  | PingRemove a person slack_people =>
      (fst (ping_remove_players a person slack_people (fst w)), snd w)
  | PingAdjustTime a info slack_people =>
      (fst (ping_adjust_time a info slack_people (fst w)), snd w)
  end.

Definition exec_all (cs : list command) (w : registry * list call)
  : registry * list call :=
  fold_left (fun w c => exec c w) cs w.

(** [REMINDERS] agrees with the service: the names for which the
    service created a reminder are pairwise distinct, and [REMINDERS]
    maps a name to a handle exactly when the service created that
    reminder for that name. *)
Definition consistent (reminders : gmap string Handle) (log : list call) : Prop :=
  NoDup (map fst (created log)) /\
  forall n h, reminders !! n = Some h <-> (n, h) ∈ created log.

(** The real name of the actor who runs a command. *)
Definition actor_of (c : command) : option string :=
  match c with
  | Ping a _ _ _ => a
  | PingAdd a _ _ => a
  | PingRemove a _ _ => a
  | PingAdjustTime a _ _ => a
  end.

End Handlers.

Arguments registry Handle : clear implicits.
Arguments call Handle : clear implicits.
Arguments progress Handle : clear implicits.
Arguments run Handle : clear implicits.
Arguments PING_EXCLUDED_LIST {Handle} _.
Arguments PING_TIMES_PER_PLAYER {Handle} _.
Arguments PING_LIST {Handle} _.
Arguments REMINDERS {Handle} _.
Arguments reminders_now {Handle} _.
Arguments calls_now {Handle} _.
Arguments players_being_reminded {Handle} _.
Arguments players_already_reminded {Handle} _.
Arguments raised {Handle} _.
Arguments registry_after {Handle} _.
Arguments log_after {Handle} _.
Arguments being_reminded {Handle} _.
Arguments already_reminded {Handle} _.
Arguments unreachable {Handle} _.
Arguments failure {Handle} _.
Arguments startup {Handle}.
Arguments cleared {Handle}.
Arguments requests {Handle} log.
Arguments created {Handle} log.
Arguments has_active {Handle} reg n.
Arguments remind {Handle} reminders_add reminders excluded st.
Arguments toggle_on repr_float {Handle} reminders_add people slack_people reg log.
Arguments summary repr_float {Handle} r.
Arguments ping_players repr_float {Handle} reminders_add
  user_real_name toggle sheet slack_people reg log.
Arguments command : clear implicits.
Arguments is_toggle_off c : clear implicits.
Arguments exec repr_float {Handle} reminders_add c w.
Arguments exec_all repr_float {Handle} reminders_add cs w.
Arguments actor_of c : clear implicits.
Arguments consistent {Handle} reminders log.
Arguments ping_add_players {Handle} user_real_name person_to_add slack_people reg.
Arguments ping_remove_players {Handle} user_real_name person_to_skip slack_people reg.
Arguments ping_adjust_time {Handle} user_real_name info slack_people reg.

End Bot.

(** ** Reading a binary64 value as a fraction *)

Module Nearest.

(** [to x num den]: [x] is a finite binary64 value in canonical form
    with a non-positive exponent, at most half a unit in the last place
    away from the fraction [num / den] (for [0 < den]). *)
Definition to (x : spec_float) (num den : Z) : Prop :=
  match x with
  | S754_finite s m e =>
      valid_binary PyFloat.prec PyFloat.emax x = true /\
      (e <= 0)%Z /\
      (2 * Z.abs ((if s then Z.neg m else Z.pos m) * den - num * 2 ^ (- e))
       <= den)%Z
  | _ => False
  end.

End Nearest.

(** ** Inputs used as examples *)

Module Examples.

Import Ledger.

Definition footer : list row :=
  let r := {| row_name := Name "Total"; row_balance := NotText;
              row_debit := NotText; row_paid := NotText |} in
  [r; r; r].

Definition euro (s : string) : cell := Text ("€" +:+ s).

(** A row whose balance cell reads [€nan]. *)
Definition nan_sheet : list row :=
  {| row_name := Name "Nan"; row_balance := euro "nan";
     row_debit := euro "0.00"; row_paid := euro "0.00" |} :: footer.

Definition nan_person : Person :=
  {| name := "Nan"; current_balance := S754_nan;
     total_debit := PyFloat.zero; total_paid := PyFloat.zero |}.

(** Ana's balance cell does not convert; Bob's row is well formed. *)
Definition ana_malformed : row :=
  {| row_name := Name "Ana"; row_balance := Text "abc";
     row_debit := euro "0.00"; row_paid := euro "0.00" |}.

Definition bob_row : row :=
  {| row_name := Name "Bob"; row_balance := Text "-€5.00";
     row_debit := euro "5.00"; row_paid := euro "0.00" |}.

Definition malformed_sheet : list row := ana_malformed :: bob_row :: footer.

Definition bob_sheet : list row := bob_row :: footer.

(** A printer of floats for the examples: the replies there do not
    depend on how a float is printed. *)
Definition plain_repr (x : spec_float) : string := "<float>".

(** A service that accepts every request and hands out the number of
    earlier requests as the handle. *)
Definition counting_service (earlier : list Slack.request) (r : Slack.request)
  : option nat := Some (length earlier).

(** A service that raises on every request for the user [U-ANA] and
    otherwise behaves as [counting_service]. *)
Definition failing_for_ana (earlier : list Slack.request) (r : Slack.request)
  : option nat :=
  if String.eqb (Slack.user r) "U-ANA" then None else Some (length earlier).

Definition ana_row : row :=
  {| row_name := Name "Ana"; row_balance := Text "-€40.00";
     row_debit := euro "40.00"; row_paid := euro "0.00" |}.

Definition ana_bob_sheet : list row := ana_row :: bob_row :: footer.

Definition roster : list Slack.member :=
  [ {| Slack.real_name := Some "Ana"; Slack.id := "U-ANA" |};
    {| Slack.real_name := Some "Bob"; Slack.id := "U-BOB" |} ].

Definition treasurer : option string := Some Bot.TREASURER.

(** A registry in which Bob has an active reminder and Ana is excluded. *)
Definition busy : Bot.registry nat :=
  {| Bot.PING_EXCLUDED_LIST := ["Ana"];
     Bot.PING_TIMES_PER_PLAYER := {[ "Bob" := "next Friday at 9:00" ]};
     Bot.PING_LIST := [];
     Bot.REMINDERS := {[ "Bob" := 7%nat ]} |}.

Definition ana : Person :=
  {| name := "Ana"; current_balance := S754_finite true 5629499534213120 (-47);
     total_debit := S754_finite false 5629499534213120 (-47);
     total_paid := PyFloat.zero |}.

Definition bob : Person :=
  {| name := "Bob"; current_balance := S754_finite true 5629499534213120 (-50);
     total_debit := S754_finite false 5629499534213120 (-50);
     total_paid := PyFloat.zero |}.

Definition reminder_for (n i : string) : Reminder.t :=
  {| Reminder.name := n; Reminder.text := "You owe"; Reminder.id := i;
     Reminder.recurrence := Bot.DEFAULT_TIME |}.

(** The locals of a toggle-on run when its loop starts in a fresh
    process. *)
Definition fresh : Bot.progress nat :=
  {| Bot.reminders_now := ∅; Bot.calls_now := [];
     Bot.players_being_reminded := []; Bot.players_already_reminded := [];
     Bot.raised := None |}.

(** Two toggle-on runs by the treasurer, with a [ping_remove] and a
    [ping_adjust_time] between them. *)
Definition session : list Bot.command :=
  [ Bot.Ping treasurer "on" ana_bob_sheet roster;
    Bot.PingRemove treasurer "Ana" roster;
    Bot.PingAdjustTime treasurer "Bob,next Friday at 9:00" roster;
    Bot.Ping treasurer "on" ana_bob_sheet roster ].

(** The reply of a handler, or the empty text when it raised. *)
Definition reply_text (r : Py.result string) : string :=
  match r with
  | Py.Ok t => t
  | Py.Raise _ => EmptyString
  end.

(** Two rows with the name Ana: the second one does not convert. *)
Definition ana_twice_sheet : list row :=
  ana_row :: ana_malformed :: bob_row :: footer.

Definition other_footer : list row :=
  let r := {| row_name := Name "Sum"; row_balance := Text "n/a";
              row_debit := Text "n/a"; row_paid := Text "n/a" |} in
  [r; r; r].

Definition stranger : option string := Some "Zoe".

(** A row with a blank name cell whose money cells do not convert. *)
Definition blank_row : row :=
  {| row_name := Blank; row_balance := Text "abc";
     row_debit := NotText; row_paid := NotText |}.

Definition blank_sheet : list row := blank_row :: bob_row :: footer.

(** Bob's row with the amount before the currency sign and a no-break
    space between them. *)
Definition bob_spaced_row : row :=
  {| row_name := Name "Bob"; row_balance := Text "-5.00 €";
     row_debit := Text "5.00 €"; row_paid := Text "0.00 €" |}.

End Examples.

(** * Properties *)

(** ** The conversions at sample inputs *)

(** [float] on texts CPython accepts: a value that needs rounding, a
    subnormal, an underflow, an overflow, underscores between digits, white
    space around the number, and the special values. *)
Example float_accepts :
  PyFloat.of_string "0.1" = Py.Ok (S754_finite false 7205759403792794 (-56)) /\
  PyFloat.of_string "1e23" = Py.Ok (S754_finite false 5960464477539062 24) /\
  PyFloat.of_string "5e-324" = Py.Ok (S754_finite false 1 (-1074)) /\
  PyFloat.of_string "2e-324" = Py.Ok (S754_zero false) /\
  PyFloat.of_string "1e400" = Py.Ok (S754_infinity false) /\
  PyFloat.of_string "1_0.5" = Py.Ok (S754_finite false 5910974510923776 (-49)) /\
  PyFloat.of_string " +.5E1 " = Py.Ok (S754_finite false 5629499534213120 (-50)) /\
  PyFloat.of_string "-0" = Py.Ok (S754_zero true) /\
  PyFloat.of_string "-Infinity" = Py.Ok (S754_infinity true) /\
  PyFloat.of_string "NaN" = Py.Ok S754_nan.
Proof. vm_compute. repeat split. Qed.

(** [float] on texts CPython rejects. *)
Example float_rejects :
  Forall (fun s => PyFloat.of_string s = Py.Raise Py.ValueError)
         [EmptyString; " "; "."; "abc"; "1e"; "1_"; "_1"; "1__0"; "1,5"; "€5";
          "+-5"; "5 0"; "0x10"; "infinit"].
Proof. repeat (constructor; [vm_compute; reflexivity|]). constructor. Qed.

(** [float] on texts that are not ASCII: Unicode white space counts as
    space and Unicode decimal digits as digits; any other character from
    code point 127 on makes the text invalid. *)
Example float_unicode :
  PyFloat.of_string "-5.00 "
  = Py.Ok (S754_finite true 5629499534213120 (-50)) /\
  PyFloat.of_string " ١٢.٥　"
  = Py.Ok (S754_finite false 7036874417766400 (-49)) /\
  PyFloat.of_string "５" = Py.Ok (S754_finite false 5629499534213120 (-50)) /\
  PyFloat.of_string "٣e٢" = Py.Ok (S754_finite false 5277655813324800 (-44)) /\
  PyFloat.of_string "5€" = Py.Raise Py.ValueError /\
  PyFloat.of_string "5²" = Py.Raise Py.ValueError /\
  PyFloat.of_string "−5" = Py.Raise Py.ValueError /\
  PyFloat.of_string " " = Py.Raise Py.ValueError.
Proof. repeat (split; [vm_compute; reflexivity|]). vm_compute. reflexivity. Qed.

(** [replace] and [split] as Python computes them. *)
Example text_samples :
  Py.replace "aa" "b" "aaaaa" = "bba" /\
  Py.replace "," EmptyString "1,234,567" = "1234567" /\
  Py.split "," "Ana,next Friday" = ["Ana"; "next Friday"] /\
  Py.split "," EmptyString = [EmptyString] /\
  Py.split "," "a,b,,c" = ["a"; "b"; EmptyString; "c"] /\
  Py.first_field "," "a,b" = "a".
Proof. vm_compute. repeat split. Qed.

(** A row with a blank name cell takes the soft path of
    [process_details], whatever its money cells hold; money cells with the
    amount before the currency sign and a no-break space convert. *)
Example loader_samples :
  Ledger.get_people_data Examples.blank_sheet
  = Py.Ok [Ledger.Nameless; Ledger.WithName Examples.bob] /\
  Ledger.get_people_data (Examples.bob_spaced_row :: Examples.footer)
  = Py.Ok [Ledger.WithName Examples.bob] /\
  Ledger.with_names [Ledger.Nameless; Ledger.WithName Examples.bob] = [Examples.bob].
Proof. repeat (split; [vm_compute; reflexivity|]). vm_compute. reflexivity. Qed.

(** ** The balance classifier *)

Section Classifier.

Import Ledger.

Lemma lt0_not_gt0 (x : spec_float) :
  PyFloat.lt0 x = true -> PyFloat.gt0 x = false.
Proof. destruct x as [[]|[]| |[] m e]; cbn; congruence. Qed.

Lemma lt0_not_eq0 (x : spec_float) :
  PyFloat.lt0 x = true -> PyFloat.eq0 x = false.
Proof. destruct x as [[]|[]| |[] m e]; cbn; congruence. Qed.

Lemma gt0_not_eq0 (x : spec_float) :
  PyFloat.gt0 x = true -> PyFloat.eq0 x = false.
Proof. destruct x as [[]|[]| |[] m e]; cbn; congruence. Qed.

Lemma neither_sign (x : spec_float) :
  PyFloat.lt0 x = false -> PyFloat.gt0 x = false ->
  PyFloat.eq0 x = true \/ PyFloat.is_nan x = true.
Proof. destruct x as [[]|[]| |[] m e]; cbn; auto; congruence. Qed.

Lemma eq0_not_nan (x : spec_float) :
  PyFloat.eq0 x = true -> PyFloat.is_nan x = false.
Proof. destruct x as [[]|[]| |[] m e]; cbn; congruence. Qed.

Lemma filter_keeps_order {A} (f : A -> bool) (l : list A) :
  List.filter f l `sublist_of` l.
Proof.
  induction l as [|a l IH]; simpl.
  - constructor.
  - destruct (f a); by constructor.
Qed.

Lemma elem_of_bool_filter {A} (f : A -> bool) (l : list A) (x : A) :
  x ∈ List.filter f l <-> x ∈ l /\ f x = true.
Proof. rewrite !list_elem_of_In, List.filter_In. tauto. Qed.

(** Three tests of which exactly one holds of each element split a list
    into three parts that together are the list again. *)
Lemma three_way_split {A} (f g h : A -> bool) (l : list A) :
  (forall x, h x = negb (f x) && negb (g x)) ->
  (forall x, f x = true -> g x = false) ->
  l ≡ₚ List.filter f l ++ List.filter g l ++ List.filter h l.
Proof.
  intros Hh Hfg. induction l as [|a l IH]; simpl; [done|].
  rewrite (Hh a). destruct (f a) eqn:Hf; simpl.
  - rewrite (Hfg a Hf). simpl. by constructor.
  - destruct (g a); simpl.
    + rewrite <- Permutation_middle. by constructor.
    + rewrite app_assoc, <- Permutation_middle, <- app_assoc. by constructor.
Qed.

End Classifier.

Section ClassifierClaims.

Import Ledger.

(** C8, as the code has it.  For every list of people, [get_all_debtors]
    keeps exactly the people with a balance below zero and
    [get_all_prepaid] exactly those with a balance above zero; no person
    is in both; a person with a zero balance is in neither; the input is
    a rearrangement of the debtors, the prepaid and the rest, where the
    rest are the people whose balance is zero or is not a number; and
    both lists keep the order of the input. *)
Theorem classification_partition (people : list Person) :
  (forall p, p ∈ get_all_debtors people <->
             p ∈ people /\ PyFloat.lt0 (current_balance p) = true) /\
  (forall p, p ∈ get_all_prepaid people <->
             p ∈ people /\ PyFloat.gt0 (current_balance p) = true) /\
  (forall p, p ∈ get_all_debtors people -> p ∉ get_all_prepaid people) /\
  (forall p, PyFloat.eq0 (current_balance p) = true ->
             (p ∉ get_all_debtors people) /\ (p ∉ get_all_prepaid people)) /\
  (forall p, p ∈ get_all_settled people <->
             p ∈ people /\ (PyFloat.eq0 (current_balance p) = true \/
                            PyFloat.is_nan (current_balance p) = true)) /\
  people ≡ₚ get_all_debtors people ++ get_all_prepaid people
            ++ get_all_settled people /\
  (get_all_debtors people) `sublist_of` people /\
  (get_all_prepaid people) `sublist_of` people.
Proof.
  unfold get_all_debtors, get_all_prepaid, get_all_settled.
  split_and!.
  - intros p. apply (elem_of_bool_filter (fun q => PyFloat.lt0 (current_balance q))).
  - intros p. apply (elem_of_bool_filter (fun q => PyFloat.gt0 (current_balance q))).
  - intros p [_ Hlt]%elem_of_bool_filter [_ Hgt]%elem_of_bool_filter.
    apply lt0_not_gt0 in Hlt. congruence.
  - intros p Hz. split.
    + intros [_ Hlt]%elem_of_bool_filter.
      apply lt0_not_eq0 in Hlt. congruence.
    + intros [_ Hgt]%elem_of_bool_filter.
      apply gt0_not_eq0 in Hgt. congruence.
  - intros p. rewrite elem_of_bool_filter. split.
    + intros [Hin [Hlt Hgt]%andb_true_iff]. split; [done|].
      apply negb_true_iff in Hlt, Hgt. by apply neither_sign.
    + intros [Hin Hrest]. split; [done|].
      destruct (current_balance p) as [[]|[]| |[] m e]; cbn in *;
        destruct Hrest; congruence.
  - apply three_way_split; [done|]. intros x. apply lt0_not_gt0.
  - apply filter_keeps_order.
  - apply filter_keeps_order.
Qed.

(** C8, as stated, fails for a balance that is not a number: the sheet
    cell [€nan] loads as such a person, who is no debtor, not prepaid,
    and whose balance is not zero either. *)
Lemma classification_nan_counterexample :
  get_people_data Examples.nan_sheet = Py.Ok [WithName Examples.nan_person] /\
  ~ (forall (people : list Person) (p : Person),
       p ∈ people ->
       p ∈ get_all_debtors people \/ p ∈ get_all_prepaid people \/
       PyFloat.eq0 (current_balance p) = true).
Proof.
  split; [vm_compute; reflexivity|].
  intros H.
  destruct (H [Examples.nan_person] Examples.nan_person) as [Hd|[Hp|Hz]].
  - by apply list_elem_of_singleton.
  - vm_compute in Hd. by apply elem_of_nil in Hd.
  - vm_compute in Hp. by apply elem_of_nil in Hp.
  - vm_compute in Hz. discriminate.
Qed.

End ClassifierClaims.

Section LoaderClaims.

Import Ledger.

(** C9.  Normalisation turns [€1,234.56] into the binary64 value nearest
    to 1234.56 and [-€5.00] into the binary64 value -5.0: the currency
    sign and the thousands separators are removed and the sign kept. *)
Theorem normalization_examples :
  (exists x, normalize (Text "€1,234.56") = Py.Ok x /\
             x = S754_finite false 5429652300748554 (-42) /\
             Nearest.to x 123456 100) /\
  (exists y, normalize (Text "-€5.00") = Py.Ok y /\
             y = S754_finite true 5629499534213120 (-50) /\
             Nearest.to y (-5) 1) /\
  Py.replace "," EmptyString (Py.replace "€" EmptyString "€1,234.56") = "1234.56" /\
  Py.replace "," EmptyString (Py.replace "€" EmptyString "-€5.00") = "-5.00".
Proof.
  split; [|split; [|split]].
  - eexists. split; [vm_compute; reflexivity|]. split; [reflexivity|].
    vm_compute. repeat split; congruence.
  - eexists. split; [vm_compute; reflexivity|]. split; [reflexivity|].
    vm_compute. repeat split; congruence.
  - vm_compute. reflexivity.
  - vm_compute. reflexivity.
Qed.

End LoaderClaims.

Section LoaderFailure.

Import Ledger.

Lemma find_first_filter {A} (f : A -> bool) (l : list A) (x : A) :
  List.find f l = Some x -> exists t, List.filter f l = x :: t.
Proof.
  induction l as [|a l IH]; simpl; [discriminate|].
  destruct (f a) eqn:Hf.
  - intros [= ->]. eauto.
  - apply IH.
Qed.

Lemma normalize_raises (c : cell) (e : Py.exn) :
  normalize c = Py.Raise e -> e = Py.ValueError \/ e = Py.AttributeError.
Proof.
  destruct c as [s|]; simpl; [|intros [= <-]; by right].
  unfold normalize_text, PyFloat.of_string.
  destruct (PyFloat.drop_underscores None _) as [cs|]; [|intros [= <-]; by left].
  destruct (PyFloat.take_sign _) as [neg rest].
  destruct (PyFloat.unsigned neg rest); [discriminate|intros [= <-]; by left].
Qed.

Lemma process_details_malformed (data : list row) (r : row) :
  List.find (fun r' => same_name (row_name r') (row_name r)) data = Some r ->
  malformed r ->
  exists e, process_details (row_name r) data = Py.Raise e /\
            (e = Py.ValueError \/ e = Py.AttributeError).
Proof.
  intros Hfind [e He]. unfold process_details.
  destruct (row_name r) as [s|] eqn:Hname.
  - apply find_first_filter in Hfind as [t ->].
    destruct (normalize (row_balance r)) as [b|eb] eqn:Hb; simpl;
      [|exists eb; split; [done|by eapply normalize_raises]].
    destruct (normalize (row_debit r)) as [d|ed] eqn:Hd; simpl;
      [|exists ed; split; [done|by eapply normalize_raises]].
    destruct (normalize (row_paid r)) as [q|eq] eqn:Hq; simpl;
      [|exists eq; split; [done|by eapply normalize_raises]].
    destruct He as [He|[He|He]]; discriminate.
  - apply List.find_some in Hfind as [_ Hsame]. rewrite Hname in Hsame.
    by destruct (row_name r).
Qed.

Lemma people_loop_raises (names : list name_cell) (data : list row)
    (peoples : list loaded) (n : name_cell) :
  n ∈ names ->
  (exists e, process_details n data = Py.Raise e) ->
  exists e, people_loop names data peoples = Py.Raise e.
Proof.
  intros Hin Hbad. revert peoples.
  induction names as [|m names IH]; intros peoples; [by apply elem_of_nil in Hin|].
  simpl. destruct (process_details m data) as [p|e] eqn:Hm; [|eauto].
  apply elem_of_cons in Hin as [->|Hin].
  - destruct Hbad as [e He]. congruence.
  - by apply IH.
Qed.

(** C5, as the code has it.  Take a row that has a name, lies above the
    last three rows of the sheet and is the first row with its name.  When
    one of its money cells is malformed (no text, or text from which the
    normalisation gives no number), the conversion raises for that row
    inside [process_details], with [ValueError] or [AttributeError];
    nothing catches it, and [get_people_data] raises as well: no list of
    people is produced. *)
Theorem malformed_row_aborts (sheet : list row) (r : row) :
  List.find (fun r' => same_name (row_name r') (row_name r))
            (drop_footer sheet) = Some r ->
  malformed r ->
  exists e, process_details (row_name r) (drop_footer sheet) = Py.Raise e /\
            (e = Py.ValueError \/ e = Py.AttributeError) /\
  exists e', get_people_data sheet = Py.Raise e'.
Proof.
  intros Hfind Hbad.
  destruct (process_details_malformed _ _ Hfind Hbad) as (e & He & Hkind).
  exists e. split; [done|]. split; [done|].
  unfold get_people_data. apply people_loop_raises with (n := row_name r).
  - apply List.find_some in Hfind as [Hin _].
    apply list_elem_of_In, in_map, Hin.
  - eauto.
Qed.

(** C5, as stated, fails on a sheet whose first row has the balance text
    [abc] and whose second row is well formed: the load raises, and
    returns no list with the second row's person. *)
Lemma malformed_row_counterexample :
  get_people_data Examples.malformed_sheet = Py.Raise Py.ValueError /\
  (exists bob, process_details (Name "Bob") (drop_footer Examples.malformed_sheet)
               = Py.Ok bob) /\
  ~ (exists people, get_people_data Examples.malformed_sheet = Py.Ok people).
Proof.
  split; [vm_compute; reflexivity|]. split.
  - eexists. vm_compute. reflexivity.
  - intros [people H]. vm_compute in H. discriminate.
Qed.

End LoaderFailure.

Lemma malformed_row_aborts_witness :
  exists e, Ledger.process_details (Ledger.Name "Ana")
              (Ledger.drop_footer Examples.malformed_sheet) = Py.Raise e /\
            (e = Py.ValueError \/ e = Py.AttributeError) /\
  exists e', Ledger.get_people_data Examples.malformed_sheet = Py.Raise e'.
Proof.
  apply (malformed_row_aborts Examples.malformed_sheet Examples.ana_malformed).
  - vm_compute. reflexivity.
  - exists Py.ValueError. left. vm_compute. reflexivity.
Defined.

(** ** The balance query *)

Section Owe.

Import Ledger Bot.

Variable repr_float : spec_float -> string.

Lemma last_char_append (s t : string) (c : ascii) :
  Py.last_char t = Some c -> Py.last_char (s +:+ t) = Some c.
Proof. intros Ht. induction s as [|a s IH]; simpl; [done|]. by rewrite IH. Qed.

Lemma owes_no_money_last (actor : option string) :
  Py.last_char (owes_no_money actor) = Some "."%char.
Proof. unfold owes_no_money. by repeat apply last_char_append. Qed.

Lemma owe_reply_last (actor : option string) (sheet : list row) (reply : string) :
  owe repr_float actor sheet = Py.Ok reply ->
  Py.last_char reply = Some "."%char.
Proof.
  unfold owe. destruct (get_people_data sheet) as [people|e]; [|discriminate].
  destruct (is_treasurer actor).
  - intros [= <-]. by repeat apply last_char_append.
  - destruct (List.filter _ (get_all_debtors (with_names people))) as [|u debt].
    + destruct (List.filter _ (get_all_prepaid (with_names people)))
        as [|u prepaid].
      * intros [= <-]. apply owes_no_money_last.
      * intros [= <-]. by repeat apply last_char_append.
    + intros [= <-]. by repeat apply last_char_append.
Qed.

Lemma nobody_mine (actor : option string) (l : list Person) :
  (forall u, u ∈ l -> Some (name u) <> actor) ->
  List.filter (fun u => Py.eqb (Py.VStr (name u)) (Py.of_name actor)) l = [].
Proof.
  induction l as [|a l IH]; intros Hno; simpl; [done|].
  destruct actor as [n|]; simpl.
  - destruct (String.eqb_spec (name a) n) as [Heq|Hne].
    + exfalso. apply (Hno a); [by left|]. by rewrite Heq.
    + apply IH. intros u Hu. apply Hno. by right.
  - apply IH. intros u Hu. apply Hno. by right.
Qed.

(** C10.  When the ledger loads, the actor is no treasurer and no debtor
    and no prepaid person has the actor's name, [owe] replies with the
    "owes no money" text.  [hits] is [0] wherever it is read, so for
    every actor and every sheet the reply is never the "search went
    wrong" text. *)
Theorem owe_without_balance (actor : option string) (sheet : list row)
    (people : list loaded) :
  get_people_data sheet = Py.Ok people ->
  is_treasurer actor = false ->
  (forall u, u ∈ get_all_debtors (with_names people) -> Some (name u) <> actor) ->
  (forall u, u ∈ get_all_prepaid (with_names people) -> Some (name u) <> actor) ->
  owe repr_float actor sheet = Py.Ok (owes_no_money actor) /\
  (forall (a : option string) (s : list row) (reply : string),
      owe repr_float a s = Py.Ok reply -> reply <> search_went_wrong).
Proof.
  intros Hload Hactor Hdebt Hpre. split.
  - unfold owe. rewrite Hload, Hactor.
    by rewrite (nobody_mine _ _ Hdebt), (nobody_mine _ _ Hpre).
  - intros a s reply Hreply ->. apply owe_reply_last in Hreply.
    vm_compute in Hreply. discriminate.
Qed.

End Owe.

Lemma owe_without_balance_witness :
  Bot.owe Examples.plain_repr (Some "Zoe") Examples.bob_sheet
  = Py.Ok (Bot.owes_no_money (Some "Zoe")) /\
  (forall (a : option string) (s : list Ledger.row) (reply : string),
      Bot.owe Examples.plain_repr a s = Py.Ok reply ->
      reply <> Bot.search_went_wrong).
Proof.
  apply (owe_without_balance Examples.plain_repr (Some "Zoe") Examples.bob_sheet
           [Ledger.WithName
              {| Ledger.name := "Bob";
                 Ledger.current_balance := S754_finite true 5629499534213120 (-50);
                 Ledger.total_debit := S754_finite false 5629499534213120 (-50);
                 Ledger.total_paid := S754_zero false |}]).
  - vm_compute. reflexivity.
  - vm_compute. reflexivity.
  - intros u Hu. vm_compute in Hu.
    apply list_elem_of_singleton in Hu. subst u. simpl. congruence.
  - intros u Hu. vm_compute in Hu. by apply elem_of_nil in Hu.
Defined.

(** ** The commands guarded by the actor's name *)

Section Guards.

Import Ledger Bot.

Variable Handle : Type.
Variable reminders_add : list Slack.request -> Slack.request -> option Handle.
Variable repr_float : spec_float -> string.

Lemma equals_treasurers_false (actor : option string) :
  equals_treasurers actor = false.
Proof. by destruct actor. Qed.

(** Both commands deny every actor and leave the registry as it was. *)
Lemma guarded_commands_deny (actor : option string) (text : string)
    (slack_people : list Slack.member) (reg : registry Handle) :
  ping_remove_players actor text slack_people reg = (reg, Py.Ok denial) /\
  ping_adjust_time actor text slack_people reg = (reg, Py.Ok denial).
Proof.
  unfold ping_remove_players, ping_adjust_time.
  by rewrite equals_treasurers_false.
Qed.

(** C6.  A toggle-off run by a treasurer leaves the exclusion list, the
    schedule overrides, the ping list and the active reminders all
    empty, in one step of the handler; afterwards no name has an active
    reminder.  The service log is untouched and the reply is empty. *)
Theorem toggle_off_clears (actor : option string) (sheet : list row)
    (slack_people : list Slack.member) (reg : registry Handle)
    (log : list (call Handle)) :
  is_treasurer actor = true ->
  exists reg',
    ping_players repr_float reminders_add actor "off" sheet slack_people
                 reg log = (reg', log, Py.Ok EmptyString) /\
    PING_EXCLUDED_LIST reg' = [] /\
    PING_TIMES_PER_PLAYER reg' = ∅ /\
    PING_LIST reg' = [] /\
    REMINDERS reg' = ∅ /\
    (forall n, has_active reg' n = false).
Proof.
  intros Hactor. exists cleared. unfold ping_players.
  rewrite Hactor. simpl. split_and!; try done.
Qed.

End Guards.

Lemma toggle_off_clears_witness :
  exists reg',
    Bot.ping_players Examples.plain_repr Examples.counting_service
      Examples.treasurer "off" [] Examples.roster Examples.busy []
    = (reg', [], Py.Ok EmptyString) /\
    Bot.PING_EXCLUDED_LIST reg' = [] /\
    Bot.PING_TIMES_PER_PLAYER reg' = ∅ /\
    Bot.PING_LIST reg' = [] /\
    Bot.REMINDERS reg' = ∅ /\
    (forall n, Bot.has_active reg' n = false).
Proof.
  apply (toggle_off_clears nat Examples.counting_service Examples.plain_repr
           Examples.treasurer [] Examples.roster Examples.busy []).
  vm_compute. reflexivity.
Defined.

(** C4, on the code.  [ping_remove_players] and [ping_adjust_time] compare
    the actor's name with the whole list [TREASURERS]; a name is never
    equal to a list.  So the treasurer Louis Stewart, whom [ping_players]
    and [ping_add_players] accept, is denied by both: asking to skip Ana,
    who is on the roster, leaves [PING_EXCLUDED_LIST] empty, and asking for
    a new time for Ana leaves [PING_TIMES_PER_PLAYER] as it was.  The same
    holds for every actor, text, roster and registry. *)
Theorem treasurer_is_denied :
  Bot.is_treasurer Examples.treasurer = true /\
  Bot.ping_remove_players Examples.treasurer "Ana" Examples.roster
    (Bot.startup : Bot.registry nat)
  = (Bot.startup, Py.Ok Bot.denial) /\
  Bot.ping_adjust_time Examples.treasurer "Ana,next Friday at 9:00" Examples.roster
    (Bot.startup : Bot.registry nat)
  = (Bot.startup, Py.Ok Bot.denial) /\
  (forall (Handle : Type) (actor : option string) (text : string)
          (slack_people : list Slack.member) (reg : Bot.registry Handle),
     Bot.ping_remove_players actor text slack_people reg = (reg, Py.Ok Bot.denial) /\
     Bot.ping_adjust_time actor text slack_people reg = (reg, Py.Ok Bot.denial)).
Proof.
  split; [vm_compute; reflexivity|].
  split; [apply guarded_commands_deny|].
  split; [apply guarded_commands_deny|].
  intros. apply guarded_commands_deny.
Qed.

(** ** The reminder loop *)

Section ReminderLoop.

Import Ledger Bot.

Variable Handle : Type.
Variable reminders_add : list Slack.request -> Slack.request -> option Handle.

Abbreviation remind := (Bot.remind reminders_add).

Lemma created_snoc_some (log : list (call Handle)) (r : Reminder.t) (h : Handle) :
  created (log ++ [(r, Some h)]) = created log ++ [(Reminder.name r, h)].
Proof. unfold created. by rewrite omap_app. Qed.

Lemma created_snoc_none (log : list (call Handle)) (r : Reminder.t) :
  created (log ++ [(r, None)]) = created log.
Proof. unfold created. rewrite omap_app. simpl. by rewrite app_nil_r. Qed.

(** An entry of [REMINDERS] is never overwritten or removed by the loop. *)
Lemma remind_keeps (l : list Reminder.t) (ex : list string)
    (st : progress Handle) (n : string) (h : Handle) :
  reminders_now st !! n = Some h ->
  reminders_now (remind l ex st) !! n = Some h.
Proof.
  revert st. induction l as [|r l IH]; intros st Hn; simpl; [done|].
  case_bool_decide; [by apply IH|].
  destruct (reminders_now st !! Reminder.name r) eqn:Hr.
  - by apply IH.
  - destruct (reminders_add _ _); simpl; [|done].
    apply IH. simpl. rewrite lookup_insert_ne; [done|]. congruence.
Qed.

(** The loop over a list in two parts, when the first part does not
    raise. *)
Lemma remind_app (l1 l2 : list Reminder.t) (ex : list string)
    (st : progress Handle) :
  raised (remind l1 ex st) = None ->
  remind (l1 ++ l2) ex st = remind l2 ex (remind l1 ex st).
Proof.
  revert st. induction l1 as [|r l1 IH]; intros st Hok; simpl in *; [done|].
  case_bool_decide; [by apply IH|].
  destruct (reminders_now st !! Reminder.name r).
  - by apply IH.
  - destruct (reminders_add _ _); [by apply IH|discriminate].
Qed.

(** The loop keeps [REMINDERS] consistent with the service. *)
Lemma remind_consistent (l : list Reminder.t) (ex : list string)
    (st : progress Handle) :
  consistent (reminders_now st) (calls_now st) ->
  consistent (reminders_now (remind l ex st)) (calls_now (remind l ex st)).
Proof.
  revert st. induction l as [|r l IH]; intros st Hc; simpl; [done|].
  case_bool_decide; [by apply IH|].
  destruct (reminders_now st !! Reminder.name r) eqn:Hr; [by apply IH|].
  destruct (reminders_add _ _) as [h|]; simpl.
  - apply IH. simpl. destruct Hc as [Hnd Hmap].
    assert (Hfresh : Reminder.name r ∉ map fst (created (calls_now st))).
    { intros Hin. apply list_elem_of_fmap in Hin as ([n h'] & Hn & Hin).
      simpl in Hn. subst n. apply Hmap in Hin. congruence. }
    split.
    + rewrite created_snoc_some, map_app. simpl.
      apply NoDup_app. split; [done|]. split.
      * intros x Hx Hx'. apply list_elem_of_singleton in Hx'. by subst x.
      * apply NoDup_singleton.
    + intros n h0. rewrite created_snoc_some, elem_of_app, list_elem_of_singleton.
      destruct (decide (n = Reminder.name r)) as [->|Hne].
      * rewrite lookup_insert_eq. split.
        -- intros [= ->]. by right.
        -- intros [Hin|[= ->]]; [|done].
           exfalso. apply Hfresh. apply list_elem_of_fmap.
           by exists (Reminder.name r, h0).
      * rewrite lookup_insert_ne by done. rewrite Hmap. split; [by left|].
        intros [Hin|[= -> _]]; [done|by destruct Hne].
  - unfold consistent in *. simpl. by rewrite created_snoc_none.
Qed.

(** The three ways one round of the loop can go, after the exclusion
    test: the name has an entry, the service creates the reminder, or the
    service raises. *)
Ltac loop_round r st :=
  simpl; case_bool_decide;
  [| destruct (reminders_now st !! Reminder.name r) eqn:?;
     [| destruct (reminders_add (requests (calls_now st)) (Reminder.request r))
          eqn:? ] ].

(** The entry of an excluded name is left as it was. *)
Lemma remind_excluded_lookup (l : list Reminder.t) (ex : list string)
    (st : progress Handle) (n : string) :
  n ∈ ex ->
  reminders_now (remind l ex st) !! n = reminders_now st !! n.
Proof.
  intros Hn. revert st. induction l as [|r l IH]; intros st; [done|].
  loop_round r st; rewrite ?IH; simpl; try done.
  apply lookup_insert_ne. congruence.
Qed.

(** The calls the loop adds to the log are made for names that are not
    excluded. *)
Lemma remind_calls (l : list Reminder.t) (ex : list string)
    (st : progress Handle) :
  exists new, calls_now (remind l ex st) = calls_now st ++ new /\
              forall c, c ∈ new -> Reminder.name (fst c) ∉ ex.
Proof.
  revert st. induction l as [|r l IH]; intros st.
  - exists []. split; [by rewrite app_nil_r|]. by intros c Hc%elem_of_nil.
  - loop_round r st.
    + apply IH.
    + destruct (IH (Build_progress _ (reminders_now st) (calls_now st)
                      (players_being_reminded st)
                      (players_already_reminded st ++ [Reminder.name r]) None))
        as (new & Hnew & Hex).
      exists new. by split.
    + match goal with |- context [remind l ex ?st1] =>
        destruct (IH st1) as (new & Hnew & Hex) end.
      simpl in Hnew. eexists (_ :: new). split.
      * rewrite Hnew, <- app_assoc. reflexivity.
      * intros c [->|Hc]%elem_of_cons; [done|by apply Hex].
    + simpl. eexists [_]. split; [reflexivity|].
      by intros c ->%list_elem_of_singleton.
Qed.

(** The reminders the loop reports as created come from its list and
    have names that are not excluded. *)
Lemma remind_being (l : list Reminder.t) (ex : list string)
    (st : progress Handle) :
  exists new,
    players_being_reminded (remind l ex st) = players_being_reminded st ++ new /\
    forall r, r ∈ new -> r ∈ l /\ Reminder.name r ∉ ex.
Proof.
  revert st. induction l as [|r l IH]; intros st.
  - exists []. split; [by rewrite app_nil_r|]. by intros c Hc%elem_of_nil.
  - loop_round r st.
    + destruct (IH st) as (new & Hnew & Hin). exists new. split; [done|].
      intros x Hx. destruct (Hin x Hx). split; [by right|done].
    + match goal with |- context [remind l ex ?st1] =>
        destruct (IH st1) as (new & Hnew & Hin) end.
      exists new. split; [done|].
      intros x Hx. destruct (Hin x Hx). split; [by right|done].
    + match goal with |- context [remind l ex ?st1] =>
        destruct (IH st1) as (new & Hnew & Hin) end.
      simpl in Hnew. exists (r :: new). split.
      * rewrite Hnew, <- app_assoc. reflexivity.
      * intros x [->|Hx]%elem_of_cons; [split; [by left|done]|].
        destruct (Hin x Hx). split; [by right|done].
    + simpl. exists []. split; [by rewrite app_nil_r|].
      by intros c Hc%elem_of_nil.
Qed.

(** The names the loop reports as already reminded are not excluded. *)
Lemma remind_already (l : list Reminder.t) (ex : list string)
    (st : progress Handle) :
  exists new,
    players_already_reminded (remind l ex st)
    = players_already_reminded st ++ new /\
    forall a, a ∈ new -> a ∉ ex.
Proof.
  revert st. induction l as [|r l IH]; intros st.
  - exists []. split; [by rewrite app_nil_r|]. by intros c Hc%elem_of_nil.
  - loop_round r st.
    + apply IH.
    + match goal with |- context [remind l ex ?st1] =>
        destruct (IH st1) as (new & Hnew & Hex) end.
      simpl in Hnew. exists (Reminder.name r :: new). split.
      * rewrite Hnew, <- app_assoc. reflexivity.
      * intros a [->|Ha]%elem_of_cons; [done|by apply Hex].
    + match goal with |- context [remind l ex ?st1] =>
        destruct (IH st1) as (new & Hnew & Hex) end.
      exists new. by split.
    + simpl. exists []. split; [by rewrite app_nil_r|].
      by intros c Hc%elem_of_nil.
Qed.

(** When the loop ends without raising, every reminder of its list has an
    excluded name or an entry in [REMINDERS]. *)
Lemma remind_finished (l : list Reminder.t) (ex : list string)
    (st : progress Handle) :
  raised (remind l ex st) = None ->
  forall r, r ∈ l ->
    Reminder.name r ∈ ex \/
    is_Some (reminders_now (remind l ex st) !! Reminder.name r).
Proof.
  revert st. induction l as [|r l IH]; intros st Hok x Hx;
    [by apply elem_of_nil in Hx|].
  revert Hok. loop_round r st; intros Hok.
  - apply elem_of_cons in Hx as [->|Hx]; [by left|by apply IH].
  - apply elem_of_cons in Hx as [->|Hx]; [|by apply IH].
    right. eexists. by apply remind_keeps.
  - apply elem_of_cons in Hx as [->|Hx]; [|by apply IH].
    right. eexists. apply remind_keeps. simpl. apply lookup_insert_eq.
  - discriminate.
Qed.

(** When every reminder of the list has an excluded name or an entry,
    the loop calls the service for none, creates none and stores none,
    and reports every name that is not excluded as already reminded. *)
Lemma remind_settled (l : list Reminder.t) (ex : list string)
    (st : progress Handle) :
  (forall r, r ∈ l ->
     Reminder.name r ∈ ex \/ is_Some (reminders_now st !! Reminder.name r)) ->
  reminders_now (remind l ex st) = reminders_now st /\
  calls_now (remind l ex st) = calls_now st /\
  players_being_reminded (remind l ex st) = players_being_reminded st /\
  (raised st = None -> raised (remind l ex st) = None) /\
  (forall r, r ∈ l -> Reminder.name r ∉ ex ->
             Reminder.name r ∈ players_already_reminded (remind l ex st)).
Proof.
  revert st. induction l as [|r l IH]; intros st Hall.
  - split_and!; try done. by intros r Hr%elem_of_nil.
  - assert (Hrest : forall x, x ∈ l ->
              Reminder.name x ∈ ex \/ is_Some (reminders_now st !! Reminder.name x))
      by (intros x Hx; apply Hall; by right).
    loop_round r st.
    + destruct (IH st Hrest) as (? & ? & ? & ? & Hal).
      split_and!; try done.
      intros x [->|Hx]%elem_of_cons Hnex; [done|by apply Hal].
    + match goal with |- context [remind l ex ?st1] =>
        destruct (IH st1 Hrest) as (? & ? & ? & Hr & Hal);
        destruct (remind_already l ex st1) as (new & Hnew & _) end.
      split_and!; try done; [by intros _; apply Hr|].
      intros x [->|Hx]%elem_of_cons Hnex; [|by apply Hal].
      rewrite Hnew. simpl. apply elem_of_app. left.
      apply elem_of_app. right. by apply list_elem_of_singleton.
    + exfalso. destruct (Hall r) as [Hex|[h' Hh]]; [by left|done|congruence].
    + exfalso. destruct (Hall r) as [Hex|[h' Hh]]; [by left|done|congruence].
Qed.

End ReminderLoop.

(** ** Toggle-on runs *)

Section Scheduler.

Import Ledger Bot.

Variable repr_float : spec_float -> string.
Variable Handle : Type.
Variable reminders_add : list Slack.request -> Slack.request -> option Handle.

Abbreviation toggle_on := (Bot.toggle_on repr_float reminders_add).
Abbreviation ping_players := (Bot.ping_players repr_float reminders_add).
Abbreviation remind := (Bot.remind reminders_add).
Abbreviation exec := (Bot.exec repr_float reminders_add).
Abbreviation exec_all := (Bot.exec_all repr_float reminders_add).

(** What [correlate] adds does not depend on the lists it adds to. *)
Lemma correlate_acc (debtors : list Person) (slack_people : list Slack.member)
    (ping_list : list (Person * Slack.member)) (un : list Person) :
  correlate debtors slack_people ping_list un
  = (ping_list ++ fst (correlate debtors slack_people [] []),
     un ++ snd (correlate debtors slack_people [] [])).
Proof.
  revert ping_list un. induction debtors as [|d debtors IH]; intros pl un; simpl.
  - by rewrite !app_nil_r.
  - destruct (List.find _ slack_people) as [sp|].
    + rewrite (IH (pl ++ _)), (IH [_]). simpl. by rewrite <- app_assoc.
    + rewrite (IH _ (un ++ _)), (IH _ [_]). simpl. by rewrite <- app_assoc.
Qed.

(** The reminders are built for the names of [PING_LIST], in order. *)
Lemma build_reminders_names (ping_list : list (Person * Slack.member))
    (times : gmap string string) :
  map Reminder.name (fst (build_reminders repr_float ping_list times))
  = map (fun x => name (fst x)) ping_list.
Proof.
  revert times. induction ping_list as [|[d p] pl IH]; intros times; simpl; [done|].
  match goal with |- context [build_reminders repr_float pl ?t] =>
    specialize (IH t); destruct (build_reminders repr_float pl t) end.
  simpl in *. by rewrite IH.
Qed.

(** The fields of a toggle-on run, in terms of the loop. *)
Lemma toggle_on_unfold (people : list Person) (slack_people : list Slack.member)
    (reg : registry Handle) (log : list (call Handle)) :
  let ping_list :=
    PING_LIST reg ++ fst (correlate (get_all_debtors people) slack_people [] []) in
  let built := build_reminders repr_float ping_list (PING_TIMES_PER_PLAYER reg) in
  let st := remind (fst built) (PING_EXCLUDED_LIST reg)
              (Build_progress Handle (REMINDERS reg) log [] [] None) in
  toggle_on people slack_people reg log
  = Build_run Handle
      (Build_registry Handle (PING_EXCLUDED_LIST reg) (snd built) ping_list
                      (reminders_now st))
      (calls_now st) (players_being_reminded st) (players_already_reminded st)
      (snd (correlate (get_all_debtors people) slack_people [] []))
      (raised st).
Proof.
  unfold Bot.toggle_on. rewrite correlate_acc. simpl.
  by destruct (build_reminders repr_float _ _) as [reminders times].
Qed.

(** C7.  For a name in [PING_EXCLUDED_LIST] when a toggle-on run starts:
    no reminder with that name is reported as created, the name is not
    reported as already reminded either (it is passed over in silence), its
    entry in [REMINDERS] is what it was before, present or not, no call to
    the service is made for it, and it is still excluded afterwards.  This
    holds for every ledger and roster, whether or not the run raises; and
    for the handler [ping_players] with the text [on], whoever runs it. *)
Theorem excluded_never_reminded (people : list Person)
    (slack_people : list Slack.member) (reg : registry Handle)
    (log : list (call Handle)) (n : string) :
  n ∈ PING_EXCLUDED_LIST reg ->
  let r := toggle_on people slack_people reg log in
  (forall rem, rem ∈ being_reminded r -> Reminder.name rem <> n) /\
  (n ∉ already_reminded r) /\
  REMINDERS (registry_after r) !! n = REMINDERS reg !! n /\
  (exists new, log_after r = log ++ new /\
               forall c, c ∈ new -> Reminder.name (fst c) <> n) /\
  (n ∈ PING_EXCLUDED_LIST (registry_after r)) /\
  (forall (actor : option string) (sheet : list row),
     let out := ping_players actor "on" sheet slack_people reg log in
     REMINDERS (fst (fst out)) !! n = REMINDERS reg !! n /\
     exists new, snd (fst out) = log ++ new /\
                 forall c, c ∈ new -> Reminder.name (fst c) <> n).
Proof.
  intros Hn.
  assert (Hrun : forall people',
    let r := toggle_on people' slack_people reg log in
    (forall rem, rem ∈ being_reminded r -> Reminder.name rem <> n) /\
    (n ∉ already_reminded r) /\
    REMINDERS (registry_after r) !! n = REMINDERS reg !! n /\
    (exists new, log_after r = log ++ new /\
                 forall c, c ∈ new -> Reminder.name (fst c) <> n) /\
    (n ∈ PING_EXCLUDED_LIST (registry_after r))).
  { intros people'. simpl. rewrite toggle_on_unfold. simpl.
    match goal with |- context [remind ?l ?ex ?st] =>
      destruct (remind_being Handle reminders_add l ex st) as (nb & Hb & Hnb);
      destruct (remind_already Handle reminders_add l ex st) as (na & Ha & Hna);
      destruct (remind_calls Handle reminders_add l ex st) as (nc & Hc & Hnc);
      pose proof (remind_excluded_lookup Handle reminders_add l ex st n Hn) as Hl
    end.
    simpl in *. split_and!.
    - intros rem Hrem <-. rewrite Hb in Hrem. by destruct (Hnb rem Hrem).
    - rewrite Ha. intros Hin. by apply (Hna n).
    - done.
    - exists nc. split; [done|]. intros c Hin <-. by apply (Hnc c).
    - done. }
  split_and!; try apply Hrun.
  intros actor sheet. unfold Bot.ping_players.
  destruct (is_treasurer actor); simpl.
  - destruct (get_people_data sheet) as [people'|e]; simpl.
    + destruct (Hrun (with_names people')) as (_ & _ & Hl & Hc & _). by split.
    + split; [done|]. exists []. split; [by rewrite app_nil_r|].
      by intros c Hc%elem_of_nil.
  - split; [done|]. exists []. split; [by rewrite app_nil_r|].
    by intros c Hc%elem_of_nil.
Qed.

(** C3, as the code has it.  When the loop reaches a reminder whose name
    is neither excluded nor active and the service raises on its request,
    the loop ends there: the call is logged as failed, that name gets no
    entry, the entries and the result lists are those the loop had built
    before it, and the reminders after it are not looked at.  The
    exception leaves [ping_players], so the reply is the exception and
    not a summary. *)
Theorem service_failure_aborts (before after : list Reminder.t) (r : Reminder.t)
    (ex : list string) (st : progress Handle) :
  let reached := remind before ex st in
  raised reached = None ->
  Reminder.name r ∉ ex ->
  reminders_now reached !! Reminder.name r = None ->
  reminders_add (requests (calls_now reached)) (Reminder.request r) = None ->
  let ended := remind (before ++ r :: after) ex st in
  raised ended = Some Py.SlackApiError /\
  reminders_now ended = reminders_now reached /\
  reminders_now ended !! Reminder.name r = None /\
  calls_now ended = calls_now reached ++ [(r, None)] /\
  players_being_reminded ended = players_being_reminded reached /\
  players_already_reminded ended = players_already_reminded reached /\
  (forall (actor : option string) (sheet : list row) (people : list loaded)
          (slack_people : list Slack.member) (reg : registry Handle)
          (log : list (call Handle)) (e : Py.exn),
     is_treasurer actor = true ->
     get_people_data sheet = Py.Ok people ->
     failure (toggle_on (with_names people) slack_people reg log) = Some e ->
     snd (ping_players actor "on" sheet slack_people reg log) = Py.Raise e).
Proof.
  intros reached Hok Hex Hnone Hfail ended. subst reached ended.
  rewrite remind_app by done. simpl.
  rewrite bool_decide_eq_false_2 by done. rewrite Hnone, Hfail. simpl.
  split_and!; try done.
  intros actor sheet people slack_people reg log e Hactor Hload Hraise.
  unfold Bot.ping_players. rewrite Hactor, Hload. simpl. by rewrite Hraise.
Qed.

Lemma built_name_in (ping_list : list (Person * Slack.member))
    (times : gmap string string) (n : string) :
  n ∈ map (fun x => name (fst x)) ping_list <->
  exists r, r ∈ fst (build_reminders repr_float ping_list times) /\
            Reminder.name r = n.
Proof.
  rewrite <- build_reminders_names with (times := times).
  rewrite list_elem_of_fmap. split.
  - intros (r & -> & Hr). by exists r.
  - intros (r & Hr & <-). by exists r.
Qed.

(** A second toggle-on run on the same people and roster, from the
    registry and the log a first run left without raising. *)
Lemma second_run_settled (people : list Person) (slack_people : list Slack.member)
    (reg : registry Handle) (log : list (call Handle)) :
  let r1 := toggle_on people slack_people reg log in
  let r2 := toggle_on people slack_people (registry_after r1) (log_after r1) in
  failure r1 = None ->
  being_reminded r2 = [] /\
  log_after r2 = log_after r1 /\
  REMINDERS (registry_after r2) = REMINDERS (registry_after r1) /\
  failure r2 = None /\
  (forall rem, rem ∈ being_reminded r1 ->
               Reminder.name rem ∈ already_reminded r2).
Proof.
  intros r1 r2. subst r2 r1.
  rewrite (toggle_on_unfold people slack_people reg log). simpl.
  set (added := fst (correlate (get_all_debtors people) slack_people [] [])).
  set (pl1 := PING_LIST reg ++ added).
  set (built1 := build_reminders repr_float pl1 (PING_TIMES_PER_PLAYER reg)).
  set (st1 := remind (fst built1) (PING_EXCLUDED_LIST reg) _).
  intros Hok.
  rewrite toggle_on_unfold. simpl. fold added.
  set (built2 := build_reminders repr_float (pl1 ++ added) (snd built1)).
  set (st2 := remind (fst built2) (PING_EXCLUDED_LIST reg) _).
  pose proof (remind_finished Handle reminders_add _ _ _ Hok) as Hfin.
  fold st1 in Hfin.
  assert (Hall : forall r, r ∈ fst built2 ->
            Reminder.name r ∈ PING_EXCLUDED_LIST reg \/
            is_Some (reminders_now st1 !! Reminder.name r)).
  { intros r Hr.
    assert (Hname : Reminder.name r ∈ map (fun x => name (fst x)) pl1).
    { assert (H2 : Reminder.name r ∈ map (fun x => name (fst x)) (pl1 ++ added))
        by (apply (built_name_in _ (snd built1)); eauto).
      rewrite map_app in H2. apply elem_of_app in H2 as [H2|H2]; [done|].
      unfold pl1. rewrite map_app. apply elem_of_app. by right. }
    apply (built_name_in _ (PING_TIMES_PER_PLAYER reg)) in Hname as (r' & Hr' & Heq).
    rewrite <- Heq. by apply Hfin. }
  destruct (remind_settled Handle reminders_add (fst built2)
              (PING_EXCLUDED_LIST reg)
              (Build_progress Handle (reminders_now st1) (calls_now st1) [] [] None)
              Hall) as (HR & HC & HB & Hraise & Hal).
  fold st2 in HR, HC, HB, Hraise, Hal.
  split_and!; try done; [by apply Hraise|].
  intros rem Hrem.
  destruct (remind_being Handle reminders_add (fst built1) (PING_EXCLUDED_LIST reg)
              (Build_progress Handle (REMINDERS reg) log [] [] None))
    as (new & Hnew & Hin).
  fold st1 in Hnew. simpl in Hnew. rewrite Hnew in Hrem.
  destruct (Hin rem Hrem) as [Hrem1 Hnex].
  assert (Hname : Reminder.name rem ∈ map (fun x => name (fst x)) (pl1 ++ added)).
  { rewrite map_app. apply elem_of_app. left.
    apply (built_name_in _ (PING_TIMES_PER_PLAYER reg)). eauto. }
  apply (built_name_in _ (snd built1)) in Hname as (r' & Hr' & Heq).
  rewrite <- Heq. apply Hal; [done|]. by rewrite Heq.
Qed.

(** C2.  When a treasurer's toggle-on has answered with its summary, a
    second toggle-on by a treasurer on the same sheet and roster, with
    nothing in between, reports no reminder as created, makes no call to
    the service and leaves [REMINDERS] as it was; every reminder the first
    run created has its name among those the second run reports as
    already reminded; and the second run answers with its summary. *)
Theorem second_toggle_on_creates_nothing (actor1 actor2 : option string)
    (sheet : list row) (slack_people : list Slack.member)
    (reg reg1 : registry Handle) (log log1 : list (call Handle)) (text1 : string) :
  is_treasurer actor1 = true ->
  is_treasurer actor2 = true ->
  ping_players actor1 "on" sheet slack_people reg log = (reg1, log1, Py.Ok text1) ->
  exists people,
    get_people_data sheet = Py.Ok people /\
    let r1 := toggle_on (with_names people) slack_people reg log in
    let r2 := toggle_on (with_names people) slack_people reg1 log1 in
    ping_players actor2 "on" sheet slack_people reg1 log1
    = (registry_after r2, log1, Py.Ok (summary repr_float r2)) /\
    being_reminded r2 = [] /\
    log_after r2 = log1 /\
    REMINDERS (registry_after r2) = REMINDERS reg1 /\
    (forall rem, rem ∈ being_reminded r1 ->
                 Reminder.name rem ∈ already_reminded r2).
Proof.
  intros Hactor1 Hactor2. unfold Bot.ping_players at 1.
  rewrite Hactor1. simpl.
  destruct (get_people_data sheet) as [people|e] eqn:Hload; [|discriminate].
  destruct (failure (toggle_on (with_names people) slack_people reg log)) eqn:Hok;
    [discriminate|].
  intros [= <- <- _]. exists people. split; [done|].
  destruct (second_run_settled (with_names people) slack_people reg log Hok)
    as (HB & HC & HR & HF & HA).
  simpl. split_and!; try done.
  unfold Bot.ping_players. rewrite Hactor2, Hload. simpl.
  by rewrite HF, HC.
Qed.

(** What a command other than a toggle-off does to [REMINDERS] and to the
    log: nothing, or what the reminder loop does. *)
Lemma exec_reminders (c : command) (w : registry Handle * list (call Handle)) :
  is_toggle_off c = false ->
  (REMINDERS (fst (exec c w)) = REMINDERS (fst w) /\ snd (exec c w) = snd w) \/
  (exists l ex st,
     reminders_now st = REMINDERS (fst w) /\ calls_now st = snd w /\
     REMINDERS (fst (exec c w)) = reminders_now (remind l ex st) /\
     snd (exec c w) = calls_now (remind l ex st)).
Proof.
  destruct w as [reg log]. destruct c as [a t sheet sp|a n sp|a n sp|a i sp]; simpl.
  - intros Hoff. unfold Bot.ping_players.
    destruct (is_treasurer a); [|by left].
    destruct (String.eqb t "on").
    + destruct (get_people_data sheet) as [people|e]; [|by left].
      right. simpl. rewrite toggle_on_unfold. simpl.
      match goal with |- context [remind ?l ?ex ?st] => by exists l, ex, st end.
    + rewrite Hoff. by left.
  - intros _. left. unfold Bot.ping_add_players.
    by destruct (is_treasurer a).
  - intros _. left. unfold Bot.ping_remove_players.
    by destruct (equals_treasurers a).
  - intros _. left. unfold Bot.ping_adjust_time.
    destruct (equals_treasurers a); [|done].
    by destruct (Py.split "," i) as [|? [|? [|? ?]]].
Qed.

Lemma exec_consistent (c : command) (w : registry Handle * list (call Handle)) :
  is_toggle_off c = false ->
  consistent (REMINDERS (fst w)) (snd w) ->
  consistent (REMINDERS (fst (exec c w))) (snd (exec c w)).
Proof.
  intros Hoff Hc.
  destruct (exec_reminders c w Hoff) as [[-> ->]|(l & ex & st & HR & HL & -> & ->)];
    [done|].
  apply remind_consistent. by rewrite HR, HL.
Qed.

Lemma exec_all_consistent (cs : list command)
    (w : registry Handle * list (call Handle)) :
  Forall (fun c => is_toggle_off c = false) cs ->
  consistent (REMINDERS (fst w)) (snd w) ->
  consistent (REMINDERS (fst (exec_all cs w))) (snd (exec_all cs w)).
Proof.
  intros Hcs. revert w. induction Hcs as [|c cs Hc _ IH]; intros w Hw; [done|].
  simpl. apply IH. by apply exec_consistent.
Qed.

(** C1.  Start from the registry of a fresh process and run any sequence
    of commands none of which is a toggle-off: toggle-on runs with any
    ledgers and rosters, by any actors, mixed with [ping_add],
    [ping_remove] and [ping_adjust_time] commands.  Then the names for
    which the service has created a reminder are pairwise distinct, and
    [REMINDERS] maps a name to a handle exactly when the service created
    that reminder for that name: one reminder per person at most.  And an
    entry of [REMINDERS] is never replaced by a further such command: a
    handle is stored only for a name that has none. *)
Theorem one_reminder_per_person (cs : list command) :
  Forall (fun c => is_toggle_off c = false) cs ->
  let w := exec_all cs (startup, []) in
  NoDup (map fst (created (snd w))) /\
  (forall n h, REMINDERS (fst w) !! n = Some h <-> (n, h) ∈ created (snd w)) /\
  (forall c n h, is_toggle_off c = false ->
                 REMINDERS (fst w) !! n = Some h ->
                 REMINDERS (fst (exec c w)) !! n = Some h).
Proof.
  intros Hcs w.
  assert (Hw : consistent (REMINDERS (fst w)) (snd w)).
  { apply exec_all_consistent; [done|]. split; simpl.
    - constructor.
    - intros n h. rewrite lookup_empty. split; [done|].
      by intros Hin%elem_of_nil. }
  destruct Hw as [Hnd Hmap]. split_and!; try done.
  intros c n h Hoff Hn.
  destruct (exec_reminders c w Hoff) as [[-> _]|(l & ex & st & HR & _ & -> & _)];
    [done|].
  apply remind_keeps. by rewrite HR.
Qed.

End Scheduler.

(** ** The theorems at concrete inputs *)

Lemma excluded_never_reminded_witness :
  let r := Bot.toggle_on Examples.plain_repr Examples.counting_service
             [Examples.ana; Examples.bob] Examples.roster Examples.busy [] in
  (forall rem, rem ∈ Bot.being_reminded r -> Reminder.name rem <> "Ana") /\
  ("Ana" ∉ Bot.already_reminded r) /\
  Bot.REMINDERS (Bot.registry_after r) !! "Ana" = Bot.REMINDERS Examples.busy !! "Ana" /\
  (exists new, Bot.log_after r = [] ++ new /\
               forall c, c ∈ new -> Reminder.name (fst c) <> "Ana") /\
  ("Ana" ∈ Bot.PING_EXCLUDED_LIST (Bot.registry_after r)) /\
  (forall (actor : option string) (sheet : list Ledger.row),
     let out := Bot.ping_players Examples.plain_repr Examples.counting_service
                  actor "on" sheet Examples.roster Examples.busy [] in
     Bot.REMINDERS (fst (fst out)) !! "Ana" = Bot.REMINDERS Examples.busy !! "Ana" /\
     exists new, snd (fst out) = [] ++ new /\
                 forall c, c ∈ new -> Reminder.name (fst c) <> "Ana").
Proof.
  apply (excluded_never_reminded Examples.plain_repr nat Examples.counting_service
           [Examples.ana; Examples.bob] Examples.roster Examples.busy [] "Ana").
  simpl. apply list_elem_of_here.
Defined.

Lemma service_failure_aborts_witness :
  let r := Examples.reminder_for "Ana" "U-ANA" in
  let after := [Examples.reminder_for "Bob" "U-BOB"] in
  let ended := Bot.remind Examples.failing_for_ana ([] ++ r :: after) []
                 Examples.fresh in
  Bot.raised ended = Some Py.SlackApiError /\
  Bot.reminders_now ended = Bot.reminders_now Examples.fresh /\
  Bot.reminders_now ended !! "Ana" = None /\
  Bot.calls_now ended = Bot.calls_now Examples.fresh ++ [(r, None)] /\
  Bot.players_being_reminded ended = [] /\
  Bot.players_already_reminded ended = [] /\
  (forall (actor : option string) (sheet : list Ledger.row)
          (people : list Ledger.loaded) (slack_people : list Slack.member)
          (reg : Bot.registry nat) (log : list (Bot.call nat)) (e : Py.exn),
     Bot.is_treasurer actor = true ->
     Ledger.get_people_data sheet = Py.Ok people ->
     Bot.failure (Bot.toggle_on Examples.plain_repr Examples.failing_for_ana
                    (Ledger.with_names people) slack_people reg log) = Some e ->
     snd (Bot.ping_players Examples.plain_repr Examples.failing_for_ana
            actor "on" sheet slack_people reg log) = Py.Raise e).
Proof.
  apply (service_failure_aborts Examples.plain_repr nat Examples.failing_for_ana
           [] [Examples.reminder_for "Bob" "U-BOB"]
           (Examples.reminder_for "Ana" "U-ANA") [] Examples.fresh).
  - reflexivity.
  - simpl. apply not_elem_of_nil.
  - reflexivity.
  - vm_compute. reflexivity.
Defined.

(** C3, as stated, fails when the service raises for Ana and would accept
    Bob's reminder: the handler raises instead of replying, Ana's failed
    call is the only one made, and Bob, who comes after Ana, is not
    registered, although a run on Bob's row alone registers him. *)
Lemma service_failure_counterexample :
  let out := Bot.ping_players Examples.plain_repr Examples.failing_for_ana
               Examples.treasurer "on" Examples.ana_bob_sheet Examples.roster
               Bot.startup [] in
  let alone := Bot.ping_players Examples.plain_repr Examples.failing_for_ana
                 Examples.treasurer "on" Examples.bob_sheet Examples.roster
                 Bot.startup [] in
  snd out = Py.Raise Py.SlackApiError /\
  ~ (exists text, snd out = Py.Ok text) /\
  length (snd (fst out)) = 1%nat /\
  Bot.has_active (fst (fst out)) "Ana" = false /\
  Bot.has_active (fst (fst out)) "Bob" = false /\
  Bot.has_active (fst (fst alone)) "Bob" = true.
Proof.
  vm_compute. split_and!; try reflexivity.
  intros [text H]. discriminate.
Qed.

Lemma second_toggle_on_creates_nothing_witness :
  let first := Bot.ping_players Examples.plain_repr Examples.counting_service
                 Examples.treasurer "on" Examples.ana_bob_sheet Examples.roster
                 Bot.startup [] in
  exists people,
    Ledger.get_people_data Examples.ana_bob_sheet = Py.Ok people /\
    let r1 := Bot.toggle_on Examples.plain_repr Examples.counting_service
                (Ledger.with_names people) Examples.roster Bot.startup [] in
    let r2 := Bot.toggle_on Examples.plain_repr Examples.counting_service
                (Ledger.with_names people) Examples.roster
                (fst (fst first)) (snd (fst first)) in
    Bot.ping_players Examples.plain_repr Examples.counting_service
      Examples.treasurer "on" Examples.ana_bob_sheet Examples.roster
      (fst (fst first)) (snd (fst first))
    = (Bot.registry_after r2, snd (fst first),
       Py.Ok (Bot.summary Examples.plain_repr r2)) /\
    Bot.being_reminded r2 = [] /\
    Bot.log_after r2 = snd (fst first) /\
    Bot.REMINDERS (Bot.registry_after r2) = Bot.REMINDERS (fst (fst first)) /\
    (forall rem, rem ∈ Bot.being_reminded r1 ->
                 Reminder.name rem ∈ Bot.already_reminded r2).
Proof.
  intros first.
  apply (second_toggle_on_creates_nothing Examples.plain_repr nat
           Examples.counting_service Examples.treasurer Examples.treasurer
           Examples.ana_bob_sheet Examples.roster Bot.startup (fst (fst first))
           [] (snd (fst first)) (Examples.reply_text (snd first))).
  - vm_compute. reflexivity.
  - vm_compute. reflexivity.
  - vm_compute. reflexivity.
Defined.

Lemma one_reminder_per_person_witness :
  let w := Bot.exec_all Examples.plain_repr Examples.counting_service
             Examples.session (Bot.startup, []) in
  NoDup (map fst (Bot.created (snd w))) /\
  (forall n h, Bot.REMINDERS (fst w) !! n = Some h <-> (n, h) ∈ Bot.created (snd w)) /\
  (forall c n h, Bot.is_toggle_off c = false ->
                 Bot.REMINDERS (fst w) !! n = Some h ->
                 Bot.REMINDERS
                   (fst (Bot.exec Examples.plain_repr Examples.counting_service c w))
                   !! n = Some h).
Proof.
  apply (one_reminder_per_person Examples.plain_repr nat Examples.counting_service
           Examples.session).
  repeat constructor.
Defined.

(** * Further properties of the code *)

(** ** The ledger loader *)

Section LoaderFacts.

Import Ledger.

(** The tests the handlers make on a loaded record, made on the whole list
    of a load, select the same records as on its records with a name: the
    sign tests on the balance, and any test [user.name == ...] against a
    text, which a NaN name fails. *)
Lemma nameless_is_filtered (people : list loaded) (f : string -> bool) :
  with_names (List.filter (fun l => PyFloat.lt0 (loaded_balance l)) people)
  = get_all_debtors (with_names people) /\
  with_names (List.filter (fun l => PyFloat.gt0 (loaded_balance l)) people)
  = get_all_prepaid (with_names people) /\
  with_names (List.filter (fun l => match loaded_name l with
                                    | Name s => f s
                                    | Blank => false
                                    end) people)
  = List.filter (fun u => f (name u)) (with_names people) /\
  (Nameless ∉ List.filter (fun l => PyFloat.lt0 (loaded_balance l)) people) /\
  (Nameless ∉ List.filter (fun l => PyFloat.gt0 (loaded_balance l)) people).
Proof.
  unfold get_all_debtors, get_all_prepaid, with_names.
  split_and!.
  - induction people as [|[p|] people IH]; cbn; [done| |done].
    destruct (PyFloat.lt0 (current_balance p)); cbn; by f_equal.
  - induction people as [|[p|] people IH]; cbn; [done| |done].
    destruct (PyFloat.gt0 (current_balance p)); cbn; by f_equal.
  - induction people as [|[p|] people IH]; cbn; [done| |done].
    destruct (f (name p)); cbn; by f_equal.
  - rewrite list_elem_of_In, List.filter_In. by intros [_ ?].
  - rewrite list_elem_of_In, List.filter_In. by intros [_ ?].
Qed.

Lemma find_of_filter {A} (f : A -> bool) (l : list A) (x : A) (t : list A) :
  List.filter f l = x :: t -> List.find f l = Some x.
Proof.
  induction l as [|a l IH]; simpl; [discriminate|].
  destruct (f a); [by intros [= -> _]|apply IH].
Qed.

Lemma find_none_filter {A} (f : A -> bool) (l : list A) :
  List.filter f l = [] -> List.find f l = None.
Proof.
  induction l as [|a l IH]; simpl; [done|].
  destruct (f a); [discriminate|apply IH].
Qed.

Lemma same_name_true (a b : name_cell) :
  same_name a b = true <-> exists s, a = Name s /\ b = Name s.
Proof.
  destruct a as [s|], b as [t|]; simpl; split; try discriminate;
    try (by intros (u & Ha & Hb)).
  - intros ->%String.eqb_eq. by exists t.
  - intros (u & [= ->] & [= ->]). apply String.eqb_refl.
Qed.

(** What a successful [process_details] returns: for the name NaN the
    nameless record; for a text, a person of that name, with zero figures
    when no row has the name, else with the conversions of the first row
    that has it. *)
Lemma process_details_ok (n : name_cell) (data : list row) (l : loaded) :
  process_details n data = Py.Ok l ->
  loaded_name l = n /\
  match l with
  | Nameless => n = Blank
  | WithName p =>
      match List.find (fun r => same_name (row_name r) n) data with
      | None => current_balance p = PyFloat.zero /\
                total_debit p = PyFloat.zero /\ total_paid p = PyFloat.zero
      | Some r => normalize (row_balance r) = Py.Ok (current_balance p) /\
                  normalize (row_debit r) = Py.Ok (total_debit p) /\
                  normalize (row_paid r) = Py.Ok (total_paid p)
      end
  end.
Proof.
  unfold process_details. destruct n as [s|]; [|by intros [= <-]].
  destruct (List.filter _ data) as [|r t] eqn:Hf.
  - rewrite (find_none_filter _ _ Hf). by intros [= <-].
  - rewrite (find_of_filter _ _ _ _ Hf).
    destruct (normalize (row_balance r)) as [b|]; simpl; [|discriminate].
    destruct (normalize (row_debit r)) as [d|]; simpl; [|discriminate].
    destruct (normalize (row_paid r)) as [q|]; simpl; [|discriminate].
    by intros [= <-].
Qed.

(** The loop appends one record for each name, in order. *)
Lemma people_loop_ok (names : list name_cell) (data : list row)
    (peoples people : list loaded) :
  people_loop names data peoples = Py.Ok people ->
  exists new, people = peoples ++ new /\
              Forall2 (fun n l => process_details n data = Py.Ok l) names new.
Proof.
  revert peoples. induction names as [|n names IH]; intros peoples; simpl.
  - intros [= <-]. exists []. split; [by rewrite app_nil_r|constructor].
  - destruct (process_details n data) as [p|e] eqn:Hp; [|discriminate].
    intros (new & -> & Hall)%IH. exists (p :: new).
    split; [by rewrite <- app_assoc|by constructor].
Qed.

Lemma people_loop_succeeds (names : list name_cell) (data : list row)
    (peoples : list loaded) :
  (forall n, n ∈ names -> exists l, process_details n data = Py.Ok l) ->
  exists people, people_loop names data peoples = Py.Ok people.
Proof.
  revert peoples. induction names as [|n names IH]; intros peoples Hall; simpl.
  - eauto.
  - destruct (Hall n) as [p ->]; [by left|].
    apply IH. intros m Hm. apply Hall. by right.
Qed.

Lemma length_drop_footer (sheet : list row) :
  length (drop_footer sheet) = (length sheet - 3)%nat.
Proof. unfold drop_footer. rewrite length_firstn. lia. Qed.

Lemma get_people_data_ok (sheet : list row) (people : list loaded) :
  get_people_data sheet = Py.Ok people ->
  Forall2 (fun n l => process_details n (drop_footer sheet) = Py.Ok l)
          (map row_name (drop_footer sheet)) people.
Proof.
  unfold get_people_data. by intros (new & -> & Hall)%people_loop_ok.
Qed.

Lemma details_names (data : list row) (names : list name_cell)
    (people : list loaded) :
  Forall2 (fun n l => process_details n data = Py.Ok l) names people ->
  map loaded_name people = names /\
  forall l, l ∈ people ->
    loaded_name l ∈ names /\ process_details (loaded_name l) data = Py.Ok l.
Proof.
  induction 1 as [|n q names people Hq _ [IHn IHp]]; simpl.
  - split; [done|]. by intros p Hp%elem_of_nil.
  - pose proof (process_details_ok _ _ _ Hq) as [Hn _]. split.
    + by rewrite Hn, IHn.
    + intros p [->|Hp]%elem_of_cons.
      * rewrite Hn. split; [by left|done].
      * destruct (IHp p Hp). split; [by right|done].
Qed.

(** X1.  A load that succeeds returns one record for each row above the
    three footer rows, in the order of the rows and with the rows' names:
    a person of that name for a name cell with a text, the nameless record
    for a blank one. *)
Theorem loaded_people_follow_rows (sheet : list row) (people : list loaded) :
  get_people_data sheet = Py.Ok people ->
  map loaded_name people = map row_name (drop_footer sheet) /\
  length people = (length sheet - 3)%nat.
Proof.
  intros Hall%get_people_data_ok. apply details_names in Hall as [Hnames _].
  split; [done|].
  rewrite <- length_drop_footer, <- (length_map row_name (drop_footer sheet)).
  by rewrite <- Hnames, length_map.
Qed.

(** X2.  In a load that succeeds every person with a name carries the
    figures of the first row that has this name; so two rows with one name
    give two equal records, and the figures of the later row are never
    read. *)
Theorem same_name_same_figures (sheet : list row) (people : list loaded) :
  get_people_data sheet = Py.Ok people ->
  forall p, WithName p ∈ people ->
    (exists r,
       List.find (fun r' => same_name (row_name r') (Name (name p)))
                 (drop_footer sheet) = Some r /\
       normalize (row_balance r) = Py.Ok (current_balance p) /\
       normalize (row_debit r) = Py.Ok (total_debit p) /\
       normalize (row_paid r) = Py.Ok (total_paid p)) /\
    (forall q, WithName q ∈ people -> name q = name p -> q = p).
Proof.
  intros Hall%get_people_data_ok. apply details_names in Hall as [_ Hrow].
  intros p Hp. destruct (Hrow _ Hp) as [Hin Hpd].
  cbn [loaded_name] in Hin, Hpd. split.
  - pose proof (process_details_ok _ _ _ Hpd) as [_ Hfind].
    destruct (List.find _ (drop_footer sheet)) as [r|] eqn:Hf; [by exists r|].
    exfalso. apply list_elem_of_fmap in Hin as (r & Hr & Hin).
    apply list_elem_of_In in Hin.
    apply (List.find_none _ _ Hf) in Hin. rewrite <- Hr in Hin.
    simpl in Hin. by rewrite String.eqb_refl in Hin.
  - intros q Hq Heq. destruct (Hrow _ Hq) as [_ Hqd]. cbn [loaded_name] in Hqd.
    rewrite Heq in Hqd. congruence.
Qed.

Lemma well_formed_converts (r : row) :
  ~ malformed r ->
  exists b d q, normalize (row_balance r) = Py.Ok b /\
                normalize (row_debit r) = Py.Ok d /\
                normalize (row_paid r) = Py.Ok q.
Proof.
  intros Hgood.
  destruct (normalize (row_balance r)) as [b|e] eqn:Hb;
    [|exfalso; apply Hgood; exists e; auto].
  destruct (normalize (row_debit r)) as [d|e] eqn:Hd;
    [|exfalso; apply Hgood; exists e; auto].
  destruct (normalize (row_paid r)) as [q|e] eqn:Hq;
    [|exfalso; apply Hgood; exists e; auto].
  by exists b, d, q.
Qed.

(** X3.  The load succeeds exactly when no row that is the first of its
    name is malformed.  A malformed row below another row of the same
    name, and a malformed row with a blank name cell, do no harm: their
    money cells are never converted.  Any other malformed row above the
    footer makes the load raise. *)
Theorem load_succeeds_iff (sheet : list row) :
  (exists people, get_people_data sheet = Py.Ok people) <->
  (forall r,
     List.find (fun r' => same_name (row_name r') (row_name r)) (drop_footer sheet)
     = Some r ->
     ~ malformed r).
Proof.
  split.
  - intros [people Hload] r Hfind Hbad.
    destruct (process_details_malformed _ _ Hfind Hbad) as (e & He & _).
    apply List.find_some in Hfind as [Hin _].
    destruct (people_loop_raises (map row_name (drop_footer sheet))
                (drop_footer sheet) [] (row_name r)) as [e' He'].
    + apply list_elem_of_In, in_map, Hin.
    + eauto.
    + unfold get_people_data in Hload. congruence.
  - intros Hgood. unfold get_people_data. apply people_loop_succeeds.
    intros n (r0 & -> & Hr0)%list_elem_of_fmap.
    destruct (row_name r0) as [s|] eqn:Hname; [|by exists Nameless].
    destruct (List.find (fun r' => same_name (row_name r') (Name s))
                (drop_footer sheet)) as [r|] eqn:Hfind.
    + pose proof (List.find_some _ _ Hfind) as [_ Hsame].
      apply same_name_true in Hsame as (u & Hr & [= <-]).
      rewrite <- Hr in Hfind.
      destruct (well_formed_converts r (Hgood r Hfind)) as (b & d & q & Hb & Hd & Hq).
      destruct (find_first_filter _ _ _ Hfind) as [t Ht].
      unfold process_details. rewrite <- Hr, Ht, Hb, Hd, Hq. simpl. eauto.
    + apply list_elem_of_In in Hr0. apply (List.find_none _ _ Hfind) in Hr0.
      rewrite Hname in Hr0. simpl in Hr0. by rewrite String.eqb_refl in Hr0.
Qed.

(** X4.  The last three rows of the sheet are dropped by position and
    never converted: two sheets that differ only in their last three rows
    load alike, and a sheet of three rows loads as the empty list,
    whatever the rows hold. *)
Theorem footer_is_ignored (data footer1 footer2 : list row) :
  length footer1 = 3%nat ->
  length footer2 = 3%nat ->
  get_people_data (data ++ footer1) = get_people_data (data ++ footer2) /\
  get_people_data footer1 = Py.Ok [].
Proof.
  intros H1 H2.
  assert (Hdrop : forall f, length f = 3%nat -> drop_footer (data ++ f) = data).
  { intros f Hf. unfold drop_footer. rewrite length_app, Hf.
    replace (length data + 3 - 3)%nat with (length data) by lia.
    by rewrite firstn_app, Nat.sub_diag, firstn_all, firstn_0, app_nil_r. }
  split.
  - unfold get_people_data. by rewrite !Hdrop.
  - unfold get_people_data, drop_footer. by rewrite H1.
Qed.

End LoaderFacts.

(** ** Schedules: [build_reminders] *)

Section ScheduleFacts.

Import Ledger Bot.

Variable repr_float : spec_float -> string.

Abbreviation build_reminders := (Bot.build_reminders repr_float).

Lemma with_default_lookup (times : gmap string string) (n : string) :
  exists t, with_default times n !! n = Some t /\ t <> EmptyString /\
            (times !! n = Some t \/
             (t = DEFAULT_TIME /\
              (times !! n = None \/ times !! n = Some EmptyString))).
Proof.
  unfold with_default. destruct (times !! n) as [t|] eqn:Hn.
  - destruct (String.eqb_spec t EmptyString) as [->|Hne].
    + exists DEFAULT_TIME. rewrite lookup_insert_eq. split_and!; auto.
    + exists t. auto.
  - exists DEFAULT_TIME. rewrite lookup_insert_eq. split_and!; auto.
Qed.

Lemma with_default_other (times : gmap string string) (n m : string) :
  m <> n -> with_default times n !! m = times !! m.
Proof.
  intros Hne. unfold with_default.
  destruct (times !! n) as [t|]; [destruct (String.eqb t EmptyString)|];
    by rewrite ?lookup_insert_ne.
Qed.

Lemma with_default_keeps (times : gmap string string) (n m t : string) :
  times !! m = Some t -> t <> EmptyString -> with_default times n !! m = Some t.
Proof.
  intros Hm Ht. destruct (decide (m = n)) as [->|Hne].
  - unfold with_default. rewrite Hm.
    by destruct (String.eqb_spec t EmptyString).
  - by rewrite with_default_other.
Qed.

(** One round of the loop of [build_reminders]. *)
Lemma build_reminders_cons (debtor : Person) (person : Slack.member)
    (rest : list (Person * Slack.member)) (times : gmap string string) :
  build_reminders ((debtor, person) :: rest) times
  = ({| Reminder.name := name debtor;
        Reminder.text := reminder_text repr_float debtor;
        Reminder.id := Slack.id person;
        Reminder.recurrence :=
          default DEFAULT_TIME (with_default times (name debtor) !! name debtor) |}
       :: fst (build_reminders rest (with_default times (name debtor))),
     snd (build_reminders rest (with_default times (name debtor)))).
Proof.
  simpl. fold (with_default times (name debtor)).
  by destruct (Bot.build_reminders repr_float rest _).
Qed.

(** A schedule that is set and not empty is left as it is. *)
Lemma build_reminders_keeps (ping_list : list (Person * Slack.member))
    (times : gmap string string) (n t : string) :
  times !! n = Some t -> t <> EmptyString ->
  snd (build_reminders ping_list times) !! n = Some t.
Proof.
  revert times. induction ping_list as [|[d p] rest IH]; intros times Hn Ht;
    [done|].
  rewrite build_reminders_cons. simpl. apply IH; [|done].
  by apply with_default_keeps.
Qed.

(** X5.  [build_reminders] persists the schedule it reads.  After it, the
    schedule stored for the name of each reminder is the recurrence of
    that reminder, and is not empty; a schedule that was set and not empty
    is unchanged; a debtor whose schedule was missing or empty is reminded
    at [DEFAULT_TIME], which is stored; and the names that are not in
    [PING_LIST] keep what they had. *)
Theorem schedule_is_persisted (ping_list : list (Person * Slack.member))
    (times : gmap string string) :
  let built := build_reminders ping_list times in
  (forall r, r ∈ fst built ->
     snd built !! Reminder.name r = Some (Reminder.recurrence r) /\
     Reminder.recurrence r <> EmptyString) /\
  (forall n t, times !! n = Some t -> t <> EmptyString ->
               snd built !! n = Some t) /\
  (forall r, r ∈ fst built ->
     times !! Reminder.name r = None \/
     times !! Reminder.name r = Some EmptyString ->
     Reminder.recurrence r = DEFAULT_TIME) /\
  (forall n, n ∉ map (fun x => name (fst x)) ping_list ->
             snd built !! n = times !! n).
Proof.
  simpl.
  assert (Hstored : forall pl times r, r ∈ fst (build_reminders pl times) ->
            snd (build_reminders pl times) !! Reminder.name r
            = Some (Reminder.recurrence r) /\
            Reminder.recurrence r <> EmptyString).
  { clear. intros pl. induction pl as [|[d p] rest IH]; intros times r Hr;
      [by apply elem_of_nil in Hr|].
    rewrite build_reminders_cons in *. simpl in *.
    apply elem_of_cons in Hr as [->|Hr]; [|by apply IH].
    simpl. destruct (with_default_lookup times (name d)) as (t & Ht & Hne & _).
    rewrite Ht. simpl. split; [|done]. by apply build_reminders_keeps. }
  split_and!.
  - apply Hstored.
  - intros n t. apply build_reminders_keeps.
  - revert times. induction ping_list as [|[d p] rest IH]; intros times r Hr Hnone;
      [by apply elem_of_nil in Hr|].
    rewrite build_reminders_cons in Hr. simpl in Hr.
    destruct (with_default_lookup times (name d)) as (t & Ht & Hne & Hcase).
    apply elem_of_cons in Hr as [->|Hr].
    + simpl in *. rewrite Ht. simpl.
      destruct Hcase as [Hset|[-> _]]; [|done].
      destruct Hnone as [Hnone|Hnone]; congruence.
    + destruct (decide (Reminder.name r = name d)) as [Heq|Hneq].
      * destruct (Hstored _ _ _ Hr) as [Hs _].
        assert (Hd : t = DEFAULT_TIME).
        { destruct Hcase as [Hset|[-> _]]; [|done].
          rewrite Heq in Hnone. destruct Hnone as [Hnone|Hnone]; congruence. }
        subst t. rewrite Heq in Hs.
        rewrite (build_reminders_keeps rest _ _ _ Ht Hne) in Hs. congruence.
      * apply (IH (with_default times (name d))); [done|].
        by rewrite with_default_other.
  - revert times. induction ping_list as [|[d p] rest IH]; intros times n Hn;
      [done|].
    rewrite build_reminders_cons. simpl in *.
    apply not_elem_of_cons in Hn as [Hne Hn].
    rewrite IH by done. by apply with_default_other.
Qed.

(** X6.  Building the reminders a second time from the schedules the first
    time left gives the same reminders and changes no schedule. *)
Theorem build_reminders_idempotent (ping_list : list (Person * Slack.member))
    (times : gmap string string) :
  build_reminders ping_list (snd (build_reminders ping_list times))
  = build_reminders ping_list times.
Proof.
  revert times. induction ping_list as [|[d p] rest IH]; intros times; [done|].
  rewrite (build_reminders_cons d p rest times). cbn [snd].
  set (times1 := with_default times (name d)).
  set (times' := snd (build_reminders rest times1)).
  destruct (with_default_lookup times (name d)) as (t & Ht & Hne & _).
  fold times1 in Ht.
  assert (Hkept : times' !! name d = Some t)
    by (by apply build_reminders_keeps).
  assert (Hsame : with_default times' (name d) = times').
  { unfold with_default. rewrite Hkept.
    by destruct (String.eqb_spec t EmptyString). }
  rewrite (build_reminders_cons d p rest times'), Hsame, Hkept, Ht. unfold times'.
  by rewrite IH.
Qed.

End ScheduleFacts.

(** ** Identity resolution and the outcome of a toggle-on run *)

Section RunFacts.

Import Ledger Bot.

Variable repr_float : spec_float -> string.
Variable Handle : Type.
Variable reminders_add : list Slack.request -> Slack.request -> option Handle.

Abbreviation toggle_on := (Bot.toggle_on repr_float reminders_add).
Abbreviation remind := (Bot.remind reminders_add).

Lemma existsb_find {A} (f : A -> bool) (l : list A) :
  existsb f l = match List.find f l with Some _ => true | None => false end.
Proof. induction l as [|a l IH]; simpl; [done|]. by destruct (f a). Qed.

(** X7.  [correlate] pairs every debtor for whom the roster has a member
    of that exact name with the first such member, and lists every other
    debtor as unreachable; both lists keep the order of the debtors. *)
Theorem identities_resolve_first_match (debtors : list Person)
    (slack_people : list Slack.member) :
  let found := correlate debtors slack_people [] [] in
  map fst (fst found)
  = List.filter (fun p => existsb (named (name p)) slack_people) debtors /\
  snd found
  = List.filter (fun p => negb (existsb (named (name p)) slack_people)) debtors /\
  Forall (fun pm => List.find (named (name (fst pm))) slack_people = Some (snd pm))
         (fst found).
Proof.
  simpl. induction debtors as [|d debtors (IH1 & IH2 & IH3)]; simpl.
  - split_and!; [done|done|constructor].
  - rewrite existsb_find.
    destruct (List.find (named (name d)) slack_people) as [m|] eqn:Hfind;
      rewrite correlate_acc; simpl.
    + rewrite IH1. split_and!; [done|done|]. by constructor.
    + by rewrite IH2.
Qed.

(** In a loop that does not raise, the created reminders have pairwise
    distinct names, none of which had an entry when the loop began, and
    each of which has an entry when it ends. *)
Lemma remind_being_fresh (l : list Reminder.t) (ex : list string)
    (st : progress Handle) :
  exists new,
    players_being_reminded (remind l ex st) = players_being_reminded st ++ new /\
    NoDup (map Reminder.name new) /\
    forall r, r ∈ new ->
      reminders_now st !! Reminder.name r = None /\
      is_Some (reminders_now (remind l ex st) !! Reminder.name r).
Proof.
  revert st. induction l as [|x l IH]; intros st.
  - exists []. split_and!; [by rewrite app_nil_r|constructor|].
    by intros r Hr%elem_of_nil.
  - simpl. case_bool_decide; [apply IH|].
    destruct (reminders_now st !! Reminder.name x) eqn:Hx.
    + match goal with |- context [remind l ex ?st1] =>
        destruct (IH st1) as (new & Hnew & Hnd & Hfresh) end.
      by exists new.
    + destruct (reminders_add _ _) as [h|].
      * match goal with |- context [remind l ex ?st1] =>
          destruct (IH st1) as (new & Hnew & Hnd & Hfresh);
          pose proof (remind_keeps Handle reminders_add l ex st1
                        (Reminder.name x) h) as Hkeep
        end.
        simpl in *. exists (x :: new). split_and!.
        -- rewrite Hnew, <- app_assoc. reflexivity.
        -- simpl. constructor; [|done].
           intros (r & Hr & Hin)%list_elem_of_fmap.
           destruct (Hfresh r Hin) as [Hnone _].
           rewrite <- Hr, lookup_insert_eq in Hnone. discriminate.
        -- intros r [->|Hin]%elem_of_cons.
           ++ split; [done|]. eexists. apply Hkeep, lookup_insert_eq.
           ++ destruct (Hfresh r Hin) as [Hnone Hsome]. split; [|done].
              destruct (decide (Reminder.name r = Reminder.name x)) as [Heq|Hne].
              ** rewrite Heq, lookup_insert_eq in Hnone. discriminate.
              ** by rewrite lookup_insert_ne in Hnone.
      * simpl. exists []. split_and!; [by rewrite app_nil_r|constructor|].
        by intros r Hr%elem_of_nil.
Qed.

(** X8.  Whatever [PING_LIST] and [REMINDERS] held before, one toggle-on
    run creates at most one reminder for a name: the reminders it reports
    as created have pairwise distinct names, none of these names is
    excluded or had an entry in [REMINDERS] before the run, and each has
    one after it. *)
Theorem created_in_a_run_are_fresh (people : list Person)
    (slack_people : list Slack.member) (reg : registry Handle)
    (log : list (call Handle)) :
  let r := toggle_on people slack_people reg log in
  NoDup (map Reminder.name (being_reminded r)) /\
  forall rem, rem ∈ being_reminded r ->
    (Reminder.name rem ∉ PING_EXCLUDED_LIST reg) /\
    has_active reg (Reminder.name rem) = false /\
    has_active (registry_after r) (Reminder.name rem) = true.
Proof.
  simpl. rewrite toggle_on_unfold. simpl.
  match goal with |- context [remind ?l ?ex ?st] =>
    destruct (remind_being_fresh l ex st) as (new & Hnew & Hnd & Hfresh);
    destruct (remind_being Handle reminders_add l ex st) as (new' & Hnew' & Hin)
  end.
  simpl in Hnew, Hnew'. rewrite Hnew in Hnew' |- *. subst new'.
  split; [exact Hnd|].
  intros rem Hrem. destruct (Hfresh rem Hrem) as [Hnone [h Hsome]].
  destruct (Hin rem Hrem) as [_ Hex]. simpl in Hnone.
  unfold has_active. simpl. by rewrite Hnone, Hsome.
Qed.

(** X9.  After a toggle-on run that does not raise, every debtor is
    accounted for: a debtor with no roster member of that name is in the
    unreachable list, and any other debtor is excluded or has an active
    reminder. *)
Theorem every_debtor_is_settled (people : list Person)
    (slack_people : list Slack.member) (reg : registry Handle)
    (log : list (call Handle)) :
  let r := toggle_on people slack_people reg log in
  failure r = None ->
  forall p, p ∈ get_all_debtors people ->
    (existsb (named (name p)) slack_people = false /\ p ∈ unreachable r) \/
    (existsb (named (name p)) slack_people = true /\
     (name p ∈ PING_EXCLUDED_LIST reg \/
      has_active (registry_after r) (name p) = true)).
Proof.
  simpl. rewrite toggle_on_unfold. simpl. intros Hok p Hp.
  destruct (identities_resolve_first_match (get_all_debtors people) slack_people)
    as (Hfound & Hun & _).
  destruct (existsb (named (name p)) slack_people) eqn:Hroster.
  - right. split; [done|].
    assert (Hin : p ∈ map fst (fst (correlate (get_all_debtors people)
                                       slack_people [] []))).
    { rewrite Hfound. apply elem_of_bool_filter. by split. }
    apply list_elem_of_fmap in Hin as ([q m] & Hq & Hin). simpl in Hq. subst q.
    match type of Hok with raised (remind (fst (Bot.build_reminders _ ?pl ?t)) _ _) = _ =>
      assert (Hname : name p ∈ map (fun x => name (fst x)) pl)
    end.
    { rewrite map_app. apply elem_of_app. right.
      apply list_elem_of_fmap. by exists (p, m). }
    apply (built_name_in repr_float _ (PING_TIMES_PER_PLAYER reg))
      in Hname as (r & Hr & Heq).
    destruct (remind_finished Handle reminders_add _ _ _ Hok r Hr) as [Hex|[h Hh]].
    + left. by rewrite <- Heq.
    + right. unfold has_active. simpl. by rewrite <- Heq, Hh.
  - left. split; [done|]. rewrite Hun. apply elem_of_bool_filter.
    split; [done|]. by rewrite Hroster.
Qed.

End RunFacts.

(** ** Sequences of commands *)

Section CommandFacts.

Import Ledger Bot.

Variable repr_float : spec_float -> string.
Variable Handle : Type.
Variable reminders_add : list Slack.request -> Slack.request -> option Handle.

Abbreviation toggle_on := (Bot.toggle_on repr_float reminders_add).
Abbreviation ping_players := (Bot.ping_players repr_float reminders_add).
Abbreviation remind := (Bot.remind reminders_add).
Abbreviation exec := (Bot.exec repr_float reminders_add).
Abbreviation exec_all := (Bot.exec_all repr_float reminders_add).

(** X10.  Commands run by actors who are no treasurers change nothing:
    after any sequence of such commands the registry and the service log
    are what they were. *)
Theorem strangers_change_nothing (cs : list command)
    (w : registry Handle * list (call Handle)) :
  Forall (fun c => is_treasurer (actor_of c) = false) cs ->
  exec_all cs w = w.
Proof.
  intros Hcs. revert w. induction Hcs as [|c cs Hc _ IH]; intros w; [done|].
  simpl. rewrite <- (IH w) at 2. f_equal.
  destruct w as [reg log].
  destruct c as [a t sheet sp|a n sp|a n sp|a i sp]; simpl in *.
  - unfold Bot.ping_players. by rewrite Hc.
  - unfold ping_add_players. by rewrite Hc.
  - by rewrite (proj1 (guarded_commands_deny Handle a n sp reg)).
  - by rewrite (proj2 (guarded_commands_deny Handle a i sp reg)).
Qed.

Lemma filter_twice {A} (f : A -> bool) (l : list A) :
  List.filter f (List.filter f l) = List.filter f l.
Proof.
  induction l as [|a l IH]; simpl; [done|].
  destruct (f a) eqn:Hf; simpl; by rewrite ?Hf, IH.
Qed.

(** The loop of [ping_add_players] filters the name out once, however
    many members have it. *)
Lemma ping_add_loop (n : string) (slack_people : list Slack.member)
    (excluded : list string) :
  fold_left (fun excluded person =>
               if named n person
               then List.filter (fun p => negb (String.eqb p n)) excluded
               else excluded)
            slack_people excluded
  = if existsb (named n) slack_people
    then List.filter (fun p => negb (String.eqb p n)) excluded
    else excluded.
Proof.
  revert excluded. induction slack_people as [|m sp IH]; intros excluded; simpl;
    [done|].
  rewrite IH. destruct (named n m); simpl; [|done].
  destruct (existsb (named n) sp); [apply filter_twice|done].
Qed.

(** X11.  [ping_add_players] run by a treasurer: when the roster has a
    member of the given name, every occurrence of the name leaves
    [PING_EXCLUDED_LIST] and the other names stay, in order; when the
    roster has none, the list is unchanged.  The rest of the registry is
    untouched, and the reply announces the addition in both cases. *)
Theorem ping_add_lifts_exclusion (actor : option string) (n : string)
    (slack_people : list Slack.member) (reg : registry Handle) :
  is_treasurer actor = true ->
  let out := ping_add_players actor n slack_people reg in
  snd out = Py.Ok ("Adding " +:+ n +:+ " to the remind list." +:+ nl) /\
  PING_TIMES_PER_PLAYER (fst out) = PING_TIMES_PER_PLAYER reg /\
  PING_LIST (fst out) = PING_LIST reg /\
  REMINDERS (fst out) = REMINDERS reg /\
  (existsb (named n) slack_people = true ->
   (n ∉ PING_EXCLUDED_LIST (fst out)) /\
   PING_EXCLUDED_LIST (fst out)
   = List.filter (fun p => negb (String.eqb p n)) (PING_EXCLUDED_LIST reg)) /\
  (existsb (named n) slack_people = false ->
   PING_EXCLUDED_LIST (fst out) = PING_EXCLUDED_LIST reg).
Proof.
  intros Hactor. unfold ping_add_players. rewrite Hactor. simpl.
  rewrite ping_add_loop. split_and!; try done.
  - intros ->. split; [|done].
    intros [_ Hn]%elem_of_bool_filter. by rewrite String.eqb_refl in Hn.
  - by intros ->.
Qed.

(** Under every command the exclusion list stays empty, and under every
    command except a treasurer's toggle-on it stays what it was. *)
Lemma exec_excluded (c : command) (w : registry Handle * list (call Handle)) :
  PING_EXCLUDED_LIST (fst w) = [] ->
  PING_EXCLUDED_LIST (fst (exec c w)) = [].
Proof.
  destruct w as [reg log]. simpl. intros Hex.
  destruct c as [a t sheet sp|a n sp|a n sp|a i sp]; simpl.
  - unfold Bot.ping_players. destruct (is_treasurer a); [|done].
    destruct (String.eqb t "on").
    + destruct (get_people_data sheet); [|done]. simpl.
      by rewrite toggle_on_unfold.
    + by destruct (String.eqb t "off").
  - unfold ping_add_players. destruct (is_treasurer a); [|done]. simpl.
    rewrite ping_add_loop, Hex. by destruct (existsb _ sp).
  - by rewrite (proj1 (guarded_commands_deny Handle a n sp reg)).
  - by rewrite (proj2 (guarded_commands_deny Handle a i sp reg)).
Qed.

(** X12.  From the registry of a fresh process, no sequence of commands,
    by whatever actors, ever puts a name into [PING_EXCLUDED_LIST]: the
    only handler that appends to it never gets past its test of the
    actor. *)
Theorem exclusion_list_stays_empty (cs : list command) :
  PING_EXCLUDED_LIST (fst (exec_all cs (startup, []))) = [].
Proof.
  assert (H : forall w : registry Handle * list (call Handle),
            PING_EXCLUDED_LIST (fst w) = [] ->
            PING_EXCLUDED_LIST (fst (exec_all cs w)) = []).
  { induction cs as [|c cs IH]; intros w Hw; [done|].
    simpl. by apply IH, exec_excluded. }
  by apply H.
Qed.

(** The schedules no handler can get away from: [DEFAULT_TIME], and for
    the treasurer the time set when the module is loaded. *)
Lemma with_default_standard (times : gmap string string) (n : string) :
  (forall m t, times !! m = Some t ->
     t = DEFAULT_TIME \/ (m = TREASURER /\ t = "next Monday at 14:00")) ->
  forall m t, with_default times n !! m = Some t ->
    t = DEFAULT_TIME \/ (m = TREASURER /\ t = "next Monday at 14:00").
Proof.
  intros Hstd m t. destruct (decide (m = n)) as [->|Hne].
  - destruct (with_default_lookup times n) as (t' & -> & _ & [Hset|[-> _]]);
      intros [= <-]; [by apply Hstd|by left].
  - rewrite with_default_other by done. apply Hstd.
Qed.

Lemma build_reminders_standard (ping_list : list (Person * Slack.member))
    (times : gmap string string) :
  (forall m t, times !! m = Some t ->
     t = DEFAULT_TIME \/ (m = TREASURER /\ t = "next Monday at 14:00")) ->
  forall m t, snd (Bot.build_reminders repr_float ping_list times) !! m = Some t ->
    t = DEFAULT_TIME \/ (m = TREASURER /\ t = "next Monday at 14:00").
Proof.
  revert times. induction ping_list as [|[d p] rest IH]; intros times Hstd;
    [done|].
  rewrite build_reminders_cons. simpl. apply IH. by apply with_default_standard.
Qed.

(** The calls the loop adds to the log are made for reminders of its
    list. *)
Lemma remind_calls_from (l : list Reminder.t) (ex : list string)
    (st : progress Handle) :
  exists new, calls_now (remind l ex st) = calls_now st ++ new /\
              forall c, c ∈ new -> fst c ∈ l.
Proof.
  revert st. induction l as [|x l IH]; intros st.
  - exists []. split; [by rewrite app_nil_r|]. by intros c Hc%elem_of_nil.
  - simpl. case_bool_decide.
    + destruct (IH st) as (new & Hnew & Hin). exists new. split; [done|].
      intros c Hc. right. by apply Hin.
    + destruct (reminders_now st !! Reminder.name x).
      * match goal with |- context [remind l ex ?st1] =>
          destruct (IH st1) as (new & Hnew & Hin) end.
        exists new. split; [done|]. intros c Hc. right. by apply Hin.
      * destruct (reminders_add _ _) as [h|].
        -- match goal with |- context [remind l ex ?st1] =>
             destruct (IH st1) as (new & Hnew & Hin) end.
           simpl in Hnew. exists ((x, Some h) :: new). split.
           ++ rewrite Hnew, <- app_assoc. reflexivity.
           ++ intros c [->|Hc]%elem_of_cons; [by left|right; by apply Hin].
        -- simpl. exists [(x, None)]. split; [done|].
           intros c ->%list_elem_of_singleton. by left.
Qed.

(** The two facts of the next theorem, as one invariant of a command. *)
Lemma exec_standard (c : command) (w : registry Handle * list (call Handle)) :
  let standard (n t : string) :=
    t = DEFAULT_TIME \/ (n = TREASURER /\ t = "next Monday at 14:00") in
  (forall n t, PING_TIMES_PER_PLAYER (fst w) !! n = Some t -> standard n t) ->
  (forall k, k ∈ snd w -> standard (Reminder.name (fst k))
                                   (Reminder.recurrence (fst k))) ->
  (forall n t, PING_TIMES_PER_PLAYER (fst (exec c w)) !! n = Some t ->
               standard n t) /\
  (forall k, k ∈ snd (exec c w) -> standard (Reminder.name (fst k))
                                            (Reminder.recurrence (fst k))).
Proof.
  destruct w as [reg log]. simpl. intros Htimes Hlog.
  destruct c as [a t sheet sp|a n sp|a n sp|a i sp]; simpl.
  - unfold Bot.ping_players. destruct (is_treasurer a); [|done].
    destruct (String.eqb t "on").
    + destruct (get_people_data sheet) as [people|e]; [|done]. simpl.
      rewrite toggle_on_unfold. simpl.
      set (pl := PING_LIST reg ++ _).
      pose proof (build_reminders_standard pl _ Htimes) as Hbuilt.
      destruct (schedule_is_persisted repr_float pl (PING_TIMES_PER_PLAYER reg))
        as (Hstored & _).
      split; [done|].
      match goal with |- context [remind ?l ?ex ?st] =>
        destruct (remind_calls_from l ex st) as (new & -> & Hfrom) end.
      simpl. intros k [Hk|Hk]%elem_of_app; [by apply Hlog|].
      apply Hfrom, Hstored in Hk as [Hk _]. by apply Hbuilt.
    + destruct (String.eqb t "off"); [|done]. simpl. split; [|done].
      intros n t'. by rewrite lookup_empty.
  - unfold ping_add_players. by destruct (is_treasurer a).
  - by rewrite (proj1 (guarded_commands_deny Handle a n sp reg)).
  - by rewrite (proj2 (guarded_commands_deny Handle a i sp reg)).
Qed.

(** X13.  From the registry of a fresh process, whatever commands are
    run, every reminder requested from the service recurs at
    [DEFAULT_TIME], or is the treasurer's and recurs at the time set when
    the module is loaded; and no other schedule is ever stored.  A time
    given to [ping_adjust_time] never reaches a reminder. *)
Theorem schedules_stay_standard (cs : list command) :
  let w := exec_all cs (startup, []) in
  (forall k, k ∈ snd w ->
     Reminder.recurrence (fst k) = DEFAULT_TIME \/
     (Reminder.name (fst k) = TREASURER /\
      Reminder.recurrence (fst k) = "next Monday at 14:00")) /\
  (forall n t, PING_TIMES_PER_PLAYER (fst w) !! n = Some t ->
     t = DEFAULT_TIME \/ (n = TREASURER /\ t = "next Monday at 14:00")).
Proof.
  assert (H : forall w : registry Handle * list (call Handle),
    (forall n t, PING_TIMES_PER_PLAYER (fst w) !! n = Some t ->
       t = DEFAULT_TIME \/ (n = TREASURER /\ t = "next Monday at 14:00")) ->
    (forall k, k ∈ snd w ->
       Reminder.recurrence (fst k) = DEFAULT_TIME \/
       (Reminder.name (fst k) = TREASURER /\
        Reminder.recurrence (fst k) = "next Monday at 14:00")) ->
    (forall k, k ∈ snd (exec_all cs w) ->
       Reminder.recurrence (fst k) = DEFAULT_TIME \/
       (Reminder.name (fst k) = TREASURER /\
        Reminder.recurrence (fst k) = "next Monday at 14:00")) /\
    (forall n t, PING_TIMES_PER_PLAYER (fst (exec_all cs w)) !! n = Some t ->
       t = DEFAULT_TIME \/ (n = TREASURER /\ t = "next Monday at 14:00"))).
  { induction cs as [|c cs IH]; intros w Htimes Hlog; [done|].
    simpl. destruct (exec_standard c w Htimes Hlog). by apply IH. }
  apply H; simpl.
  - intros n t [<- <-]%lookup_singleton_Some. by right.
  - by intros k Hk%elem_of_nil.
Qed.

(** With a service that accepts every request, the loop creates a reminder
    for every name of its list that is neither excluded nor active. *)
Lemma remind_creates (l : list Reminder.t) (ex : list string)
    (st : progress Handle) (r : Reminder.t) :
  (forall earlier q, reminders_add earlier q <> None) ->
  r ∈ l ->
  Reminder.name r ∉ ex ->
  reminders_now st !! Reminder.name r = None ->
  exists new h, calls_now (remind l ex st) = calls_now st ++ new /\
                (Reminder.name r, h) ∈ created new.
Proof.
  intros Htotal. revert st. induction l as [|x l IH]; intros st Hr Hex Hnone;
    [by apply elem_of_nil in Hr|].
  simpl. case_bool_decide as Hx.
  - apply IH; try done. apply elem_of_cons in Hr as [->|Hr]; done.
  - destruct (reminders_now st !! Reminder.name x) eqn:Hact.
    + match goal with |- context [remind l ex ?st1] =>
        destruct (IH st1) as (new & h' & Hnew & Hin) end; try done.
      * apply elem_of_cons in Hr as [->|Hr]; [congruence|done].
      * by exists new, h'.
    + destruct (reminders_add _ _) as [h|] eqn:Hadd; [|by apply Htotal in Hadd].
      destruct (decide (Reminder.name x = Reminder.name r)) as [Heq|Hne].
      * match goal with |- context [remind l ex ?st1] =>
          destruct (remind_calls Handle reminders_add l ex st1)
            as (new & Hnew & _) end.
        simpl in Hnew. exists ((x, Some h) :: new), h. split.
        -- rewrite Hnew, <- app_assoc. reflexivity.
        -- unfold created. simpl. rewrite Heq. by left.
      * match goal with |- context [remind l ex ?st1] =>
          destruct (IH st1) as (new & h' & Hnew & Hin) end; try done.
        -- apply elem_of_cons in Hr as [->|Hr]; [done|done].
        -- simpl. by rewrite lookup_insert_ne.
        -- simpl in Hnew. exists ((x, Some h) :: new), h'. split.
           ++ rewrite Hnew, <- app_assoc. reflexivity.
           ++ unfold created. simpl. by right.
Qed.

(** A toggle-on run from a registry with no exclusion and no active
    reminder, with such a service: every debtor on the roster gets a
    reminder created in that run. *)
Lemma toggle_on_creates (people : list Person) (slack_people : list Slack.member)
    (reg : registry Handle) (log : list (call Handle)) (p : Person) :
  (forall earlier q, reminders_add earlier q <> None) ->
  PING_EXCLUDED_LIST reg = [] ->
  REMINDERS reg = ∅ ->
  p ∈ get_all_debtors people ->
  existsb (named (name p)) slack_people = true ->
  exists new h, log_after (toggle_on people slack_people reg log) = log ++ new /\
                (name p, h) ∈ created new.
Proof.
  intros Htotal Hex Hrem Hp Hroster. rewrite toggle_on_unfold. simpl.
  destruct (identities_resolve_first_match (get_all_debtors people) slack_people)
    as (Hfound & _ & _).
  assert (Hin : p ∈ map fst (fst (correlate (get_all_debtors people)
                                     slack_people [] []))).
  { rewrite Hfound. apply elem_of_bool_filter. by split. }
  apply list_elem_of_fmap in Hin as ([q m] & Hq & Hin). simpl in Hq. subst q.
  set (pl := PING_LIST reg ++ _).
  assert (Hname : name p ∈ map (fun x => name (fst x)) pl).
  { unfold pl. rewrite map_app. apply elem_of_app. right.
    apply list_elem_of_fmap. by exists (p, m). }
  apply (built_name_in repr_float _ (PING_TIMES_PER_PLAYER reg))
    in Hname as (r & Hr & Heq).
  rewrite <- Heq. rewrite Hex, Hrem.
  match goal with |- context [remind ?l ?ex ?st] =>
    destruct (remind_creates l ex st r Htotal Hr) as (new & h & Hnew & Hc) end.
  - apply not_elem_of_nil.
  - apply lookup_empty.
  - by exists new, h.
Qed.

(** X14.  Toggle-off forgets the handles without cancelling anything at
    the service.  With a service that accepts every request, a treasurer's
    on, off, on from a fresh process makes the service create two
    reminders for every debtor on the roster: one before the toggle-off,
    which stays at the service, and one after it. *)
Theorem toggle_off_leaves_reminders_behind (actor : option string)
    (sheet : list row) (slack_people : list Slack.member)
    (people : list loaded) (p : Person) :
  (forall earlier q, reminders_add earlier q <> None) ->
  is_treasurer actor = true ->
  get_people_data sheet = Py.Ok people ->
  p ∈ get_all_debtors (with_names people) ->
  existsb (named (name p)) slack_people = true ->
  let w := exec_all [Ping actor "on" sheet slack_people;
                     Ping actor "off" sheet slack_people;
                     Ping actor "on" sheet slack_people] (startup, []) in
  exists before after h1 h2,
    snd w = before ++ after /\
    (name p, h1) ∈ created before /\
    (name p, h2) ∈ created after /\
    ~ NoDup (map fst (created (snd w))).
Proof.
  intros Htotal Hactor Hload Hp Hroster. simpl.
  unfold Bot.ping_players. rewrite Hactor, Hload. simpl.
  destruct (toggle_on_creates (with_names people) slack_people startup [] p)
    as (before & h1 & Hb & H1); try done.
  simpl in Hb. rewrite Hb.
  destruct (toggle_on_creates (with_names people) slack_people cleared before p)
    as (after & h2 & Ha & H2); try done.
  rewrite Ha. exists before, after, h1, h2. split_and!; try done.
  unfold created. rewrite omap_app, map_app. intros Hnd.
  apply NoDup_app in Hnd as (_ & Hdisj & _).
  apply (Hdisj (name p)).
  - apply list_elem_of_fmap. by exists (name p, h1).
  - apply list_elem_of_fmap. by exists (name p, h2).
Qed.

End CommandFacts.

(** ** The replies of [owe] and [player_finance_breakdown] *)

Section ReplyFacts.

Import Ledger Bot.

Variable repr_float : spec_float -> string.

Abbreviation owe := (Bot.owe repr_float).

Lemma filter_swap {A} (f g : A -> bool) (l : list A) :
  List.filter f (List.filter g l) = List.filter g (List.filter f l).
Proof.
  induction l as [|a l IH]; simpl; [done|].
  destruct (f a) eqn:Hf, (g a) eqn:Hg; simpl; rewrite ?Hf, ?Hg, ?IH; done.
Qed.

(** X15.  To an actor who is no treasurer, [owe] shows nothing of other
    people: two ledgers that agree on the records with the actor's name
    get the same reply, whatever else they hold. *)
Theorem owe_shows_only_own_figures (actor : option string)
    (sheet1 sheet2 : list row) (people1 people2 : list loaded) :
  is_treasurer actor = false ->
  get_people_data sheet1 = Py.Ok people1 ->
  get_people_data sheet2 = Py.Ok people2 ->
  List.filter (fun u => Py.eqb (Py.VStr (name u)) (Py.of_name actor))
              (with_names people1)
  = List.filter (fun u => Py.eqb (Py.VStr (name u)) (Py.of_name actor))
                (with_names people2) ->
  owe actor sheet1 = owe actor sheet2.
Proof.
  intros Hactor H1 H2 Hsame. unfold Bot.owe. rewrite H1, H2, Hactor.
  unfold get_all_debtors, get_all_prepaid.
  rewrite (filter_swap _ _ (with_names people1)).
  rewrite (filter_swap _ _ (with_names people2)).
  rewrite (filter_swap _ (fun person => PyFloat.gt0 _) (with_names people1)).
  rewrite (filter_swap _ (fun person => PyFloat.gt0 _) (with_names people2)).
  by rewrite Hsame.
Qed.

(** X17.  [player_finance_breakdown] never sends a breakdown.  Once the
    ledger is loaded, an actor with a record in it makes the handler raise
    [AttributeError], because [Person] has no field [membership]; an actor
    with no record gets the text that the user could not be found. *)
Theorem breakdown_is_never_sent (actor : option string) (sheet : list row)
    (people : list loaded) :
  get_people_data sheet = Py.Ok people ->
  ((exists u, u ∈ with_names people /\ Some (name u) = actor) ->
   player_finance_breakdown actor sheet = Py.Raise Py.AttributeError) /\
  ((forall u, u ∈ with_names people -> Some (name u) <> actor) ->
   player_finance_breakdown actor sheet = Py.Ok (not_in_the_book actor)) /\
  (forall reply, player_finance_breakdown actor sheet = Py.Ok reply ->
                 reply = not_in_the_book actor).
Proof.
  intros Hload. unfold player_finance_breakdown. rewrite Hload.
  split_and!.
  - intros (u & Hu & Hname).
    destruct (List.filter _ (with_names people)) as [|v t] eqn:Hf; [|done].
    exfalso. assert (Hin : u ∈ List.filter
      (fun u => Py.eqb (Py.VStr (name u)) (Py.of_name actor))
      (with_names people)).
    { apply elem_of_bool_filter. split; [done|].
      rewrite <- Hname. simpl. apply String.eqb_refl. }
    rewrite Hf in Hin. by apply elem_of_nil in Hin.
  - intros Hnone. by rewrite (nobody_mine actor (with_names people) Hnone).
  - intros reply. destruct (List.filter _ (with_names people)); [|discriminate].
    by intros [= <-].
Qed.

End ReplyFacts.

(** ** The sign of a converted balance *)

Section SignFacts.

Import Ledger.

(** Rounding keeps the sign it is given. *)
Lemma binary_round_aux_sign (sx : bool) (mx ex : Z) (lx : location) :
  let x := binary_round_aux PyFloat.prec PyFloat.emax sx mx ex lx in
  if sx then PyFloat.gt0 x = false else PyFloat.lt0 x = false.
Proof.
  unfold binary_round_aux.
  destruct (shr_fexp _ _ mx ex lx) as [mrs' e'].
  destruct (shr_fexp _ _ _ e' loc_Exact) as [mrs'' e''].
  destruct (shr_m mrs'') as [|m|m]; [| destruct (e'' <=? _)%Z |];
    by destruct sx.
Qed.

Lemma of_decimal_not_negative (m e10 : Z) :
  PyFloat.lt0 (PyFloat.of_decimal false m e10) = false.
Proof.
  unfold PyFloat.of_decimal. destruct m as [|p|p]; [done| |done].
  destruct (0 <=? e10)%Z eqn:He.
  - apply Z.leb_le in He.
    assert (Hpos : (0 < Z.pos p * 10 ^ e10)%Z).
    { apply Z.mul_pos_pos; [done|]. by apply Z.pow_pos_nonneg. }
    destruct (Z.pos p * 10 ^ e10)%Z as [|q|q]; [done| |lia].
    unfold binary_normalize, binary_round.
    destruct (shl_align _ _ _) as [mz ez].
    apply (binary_round_aux_sign false).
  - unfold SFdiv.
    destruct (SFdiv_core_binary _ _ _ _ _ _) as [[mz ez] lz].
    apply (binary_round_aux_sign false).
Qed.

Lemma unsigned_not_negative (cs : list ascii) (x : spec_float) :
  PyFloat.unsigned false cs = Some x -> PyFloat.lt0 x = false.
Proof.
  unfold PyFloat.unsigned.
  destruct (_ || _); [by intros [= <-]|].
  destruct (String.eqb _ "nan"); [by intros [= <-]|].
  destruct (PyFloat.take_digits cs) as [ip r1].
  destruct (match r1 with [] => _ | _ :: _ => _ end) as [fp r2].
  destruct (ip ++ fp); [discriminate|].
  destruct r2 as [|c r3].
  - intros [= <-]. apply of_decimal_not_negative.
  - destruct (_ =? 101)%nat; [|discriminate].
    destruct (PyFloat.exponent r3); simpl; [|discriminate].
    intros [= <-]. apply of_decimal_not_negative.
Qed.

Lemma skip_spaces_subset (cs : list ascii) (c : ascii) :
  c ∈ PyFloat.skip_spaces cs -> c ∈ cs.
Proof.
  induction cs as [|a cs IH]; simpl; [done|].
  destruct (PyFloat.is_space a); [|done]. intros Hc. right. by apply IH.
Qed.

Lemma strip_subset (cs : list ascii) (c : ascii) :
  c ∈ PyFloat.strip cs -> c ∈ cs.
Proof.
  unfold PyFloat.strip. intros Hc%list_elem_of_In.
  apply <- List.in_rev in Hc. apply list_elem_of_In, skip_spaces_subset in Hc.
  apply list_elem_of_In in Hc. apply <- List.in_rev in Hc.
  by apply list_elem_of_In, skip_spaces_subset in Hc.
Qed.

Lemma drop_underscores_subset (prev : option ascii) (cs out : list ascii)
    (c : ascii) :
  PyFloat.drop_underscores prev cs = Some out -> c ∈ out -> c ∈ cs.
Proof.
  revert prev out. induction cs as [|a cs IH]; intros prev out; simpl.
  - destruct prev as [p|]; [destruct (PyFloat.is_underscore p)|];
      try discriminate; by intros [= <-].
  - destruct (PyFloat.is_underscore a).
    + destruct prev as [p|]; [|discriminate].
      destruct (PyFloat.is_digit p); [|discriminate].
      intros Hout Hc. right. by eapply IH.
    + destruct (match prev with Some _ => _ | None => _ end); [discriminate|].
      destruct (PyFloat.drop_underscores (Some a) cs) as [r|] eqn:Hr;
        [|discriminate].
      simpl. intros [= <-] [->|Hc]%elem_of_cons; [by left|].
      right. by eapply IH.
Qed.

(** Removing every occurrence of a text adds no character. *)
Lemma removal_subset (old : string) (skip : nat) (s : string) (c : ascii) :
  c ∈ list_ascii_of_string (Py.replace_from old EmptyString skip s) ->
  c ∈ list_ascii_of_string s.
Proof.
  revert skip. induction s as [|a s IH]; intros skip; [done|].
  destruct skip as [|k]; cbn -[String.prefix].
  - destruct (String.prefix old (String a s)); cbn -[String.prefix].
    + intros Hc. right. by eapply IH.
    + intros [->|Hc]%elem_of_cons; [by left|]. right. by eapply IH.
  - intros Hc. right. by eapply IH.
Qed.

(** A code point below 128 among the decoded ones is a byte of the text. *)
Lemma decode_utf8_small (bs : list ascii) (need : nat) (acc low ch : N) :
  (need <> O -> (0x80 <= low)%N) ->
  ch ∈ PyFloat.decode_utf8 need acc low bs ->
  (ch < 0x80)%N ->
  ascii_of_N ch ∈ bs.
Proof.
  revert need acc low.
  induction bs as [|b bs IH]; intros need acc low Hlow Hin Hch.
  - destruct need; simpl in Hin; [by apply elem_of_nil in Hin|].
    apply list_elem_of_singleton in Hin. subst ch.
    unfold PyFloat.not_a_code_point in Hch. lia.
  - assert (Hbad : ch <> PyFloat.not_a_code_point)
      by (unfold PyFloat.not_a_code_point; lia).
    assert (Hrest : forall k a l, (k <> O -> (0x80 <= l)%N) ->
              ch ∈ PyFloat.decode_utf8 k a l bs -> ascii_of_N ch ∈ b :: bs)
      by (intros k a l Hl Hk; right; by eapply IH).
    destruct need as [|k]; cbn [PyFloat.decode_utf8] in Hin; cbv zeta in Hin.
    + destruct (N_of_ascii b <? 0x80)%N.
      { apply elem_of_cons in Hin as [->|Hin]; [|by apply (Hrest O 0%N 0%N)].
        rewrite ascii_N_embedding. by left. }
      destruct (_ && _); [eapply Hrest; [|exact Hin]; intros _; lia|].
      destruct (_ && _); [eapply Hrest; [|exact Hin]; intros _; lia|].
      destruct (_ && _); [eapply Hrest; [|exact Hin]; intros _; lia|].
      apply elem_of_cons in Hin as [->|Hin]; [done|by apply (Hrest O 0%N 0%N)].
    + destruct (_ && _).
      * destruct k as [|k].
        -- apply elem_of_cons in Hin as [Hin|Hin]; [|by apply (Hrest O 0%N 0%N)].
           exfalso. specialize (Hlow ltac:(done)).
           destruct (_ && _ && _) eqn:Hvalid; [|done].
           apply andb_true_iff in Hvalid as [[Hge%N.leb_le _]%andb_true_iff _].
           lia.
        -- eapply Hrest; [|exact Hin]. intros _. by apply Hlow.
      * apply elem_of_cons in Hin as [->|Hin]; [done|by apply (Hrest O 0%N 0%N)].
Qed.

Lemma decimal_value_small (ch d : N) :
  PyFloat.decimal_value ch = Some d -> (d < 10)%N.
Proof.
  unfold PyFloat.decimal_value.
  destruct (List.find _ PyFloat.decimal_zeros) as [z|] eqn:Hz; [|discriminate].
  apply List.find_some in Hz as [_ [Hle%N.leb_le Hlt%N.ltb_lt]%andb_true_iff].
  intros [= <-]. lia.
Qed.

(** The pass over a text that is not ASCII writes a minus sign only where
    it reads one. *)
Lemma to_ascii_minus (chs : list N) :
  "-"%char ∈ PyFloat.to_ascii chs -> 45%N ∈ chs.
Proof.
  induction chs as [|ch chs IH]; cbn [PyFloat.to_ascii];
    [by intros ?%elem_of_nil|].
  destruct (ch <? 127)%N eqn:Hch.
  - apply N.ltb_lt in Hch. intros [Heq|Hin]%elem_of_cons; [|right; by apply IH].
    apply (f_equal N_of_ascii) in Heq.
    rewrite N_ascii_embedding in Heq by lia. rewrite <- Heq. by left.
  - destruct (PyFloat.is_unicode_space ch).
    + intros [Heq|Hin]%elem_of_cons; [discriminate|right; by apply IH].
    + destruct (PyFloat.decimal_value ch) as [d|] eqn:Hd.
      * apply decimal_value_small in Hd.
        intros [Heq|Hin]%elem_of_cons; [|right; by apply IH].
        apply (f_equal N_of_ascii) in Heq.
        rewrite N_ascii_embedding in Heq by lia. simpl in Heq. lia.
      * intros Hin%list_elem_of_singleton. discriminate.
Qed.

Lemma ascii_text_minus (s : string) :
  "-"%char ∈ PyFloat.ascii_text s -> "-"%char ∈ list_ascii_of_string s.
Proof.
  unfold PyFloat.ascii_text. destruct (forallb _ _); [done|].
  intros Hin%to_ascii_minus.
  by apply (decode_utf8_small _ 0 0 0 45) in Hin.
Qed.

Lemma take_sign_minus (cs r : list ascii) :
  PyFloat.take_sign cs = (true, r) -> "-"%char ∈ cs.
Proof.
  destruct cs as [|a cs]; simpl; [discriminate|].
  destruct (nat_of_ascii a =? 45)%nat eqn:Ha.
  - intros _. apply Nat.eqb_eq in Ha.
    assert (a = "-"%char) as -> by (rewrite <- (ascii_nat_embedding a), Ha; done).
    by left.
  - by destruct (nat_of_ascii a =? 43)%nat.
Qed.

(** X18.  A money cell whose text holds no minus sign never converts to a
    number below zero: whatever else the text holds, if it converts, the
    person is not classified as a debtor on its account. *)
Theorem no_minus_no_debt (s : string) (x : spec_float) :
  "-"%char ∉ list_ascii_of_string s ->
  normalize (Text s) = Py.Ok x ->
  PyFloat.lt0 x = false.
Proof.
  intros Hminus. simpl. unfold normalize_text, PyFloat.of_string.
  destruct (PyFloat.drop_underscores None _) as [cs|] eqn:Hcs; [|discriminate].
  destruct (PyFloat.take_sign (PyFloat.strip cs)) as [neg r] eqn:Hsign.
  destruct neg.
  - exfalso. apply Hminus.
    apply take_sign_minus, strip_subset in Hsign.
    apply (drop_underscores_subset _ _ _ _ Hcs), ascii_text_minus in Hsign.
    by apply removal_subset, removal_subset in Hsign.
  - destruct (PyFloat.unsigned false r) as [y|] eqn:Hy; [|discriminate].
    intros [= <-]. by apply unsigned_not_negative in Hy.
Qed.

End SignFacts.

(** ** These properties at concrete inputs *)

Lemma loaded_people_follow_rows_witness :
  map Ledger.loaded_name [Ledger.Nameless; Ledger.WithName Examples.bob]
  = map Ledger.row_name (Ledger.drop_footer Examples.blank_sheet) /\
  length [Ledger.Nameless; Ledger.WithName Examples.bob]
  = (length Examples.blank_sheet - 3)%nat.
Proof.
  apply (loaded_people_follow_rows Examples.blank_sheet
           [Ledger.Nameless; Ledger.WithName Examples.bob]).
  vm_compute. reflexivity.
Defined.

Lemma same_name_same_figures_witness :
  (exists r,
     List.find (fun r' => Ledger.same_name (Ledger.row_name r')
                            (Ledger.Name (Ledger.name Examples.ana)))
               (Ledger.drop_footer Examples.ana_twice_sheet) = Some r /\
     Ledger.normalize (Ledger.row_balance r)
     = Py.Ok (Ledger.current_balance Examples.ana) /\
     Ledger.normalize (Ledger.row_debit r)
     = Py.Ok (Ledger.total_debit Examples.ana) /\
     Ledger.normalize (Ledger.row_paid r)
     = Py.Ok (Ledger.total_paid Examples.ana)) /\
  (forall q, Ledger.WithName q
               ∈ [Ledger.WithName Examples.ana; Ledger.WithName Examples.ana;
                  Ledger.WithName Examples.bob] ->
             Ledger.name q = Ledger.name Examples.ana -> q = Examples.ana).
Proof.
  apply (same_name_same_figures Examples.ana_twice_sheet
           [Ledger.WithName Examples.ana; Ledger.WithName Examples.ana;
            Ledger.WithName Examples.bob]).
  - vm_compute. reflexivity.
  - right. left.
Defined.

Lemma footer_is_ignored_witness :
  Ledger.get_people_data ([Examples.ana_row; Examples.bob_row] ++ Examples.footer)
  = Ledger.get_people_data
      ([Examples.ana_row; Examples.bob_row] ++ Examples.other_footer) /\
  Ledger.get_people_data Examples.footer = Py.Ok [].
Proof.
  apply (footer_is_ignored [Examples.ana_row; Examples.bob_row]
           Examples.footer Examples.other_footer); reflexivity.
Defined.

Lemma every_debtor_is_settled_witness :
  let r := Bot.toggle_on Examples.plain_repr Examples.counting_service
             [Examples.ana; Examples.bob] Examples.roster Bot.startup [] in
  (existsb (Bot.named (Ledger.name Examples.bob)) Examples.roster = false /\
   Examples.bob ∈ Bot.unreachable r) \/
  (existsb (Bot.named (Ledger.name Examples.bob)) Examples.roster = true /\
   (Ledger.name Examples.bob
      ∈ Bot.PING_EXCLUDED_LIST (Bot.startup : Bot.registry nat) \/
    Bot.has_active (Bot.registry_after r) (Ledger.name Examples.bob) = true)).
Proof.
  apply (every_debtor_is_settled Examples.plain_repr nat Examples.counting_service
           [Examples.ana; Examples.bob] Examples.roster Bot.startup []).
  - vm_compute. reflexivity.
  - vm_compute. right. left.
Defined.

Lemma strangers_change_nothing_witness :
  Bot.exec_all Examples.plain_repr Examples.counting_service
    [ Bot.Ping Examples.stranger "on" Examples.ana_bob_sheet Examples.roster;
      Bot.PingAdd Examples.stranger "Ana" Examples.roster;
      Bot.PingRemove Examples.stranger "Bob" Examples.roster;
      Bot.PingAdjustTime Examples.stranger "Bob,now" Examples.roster;
      Bot.Ping Examples.stranger "off" [] Examples.roster ]
    (Examples.busy, [])
  = (Examples.busy, []).
Proof.
  apply (strangers_change_nothing Examples.plain_repr nat Examples.counting_service).
  repeat constructor.
Defined.

Lemma ping_add_lifts_exclusion_witness :
  let out := Bot.ping_add_players Examples.treasurer "Ana" Examples.roster
               Examples.busy in
  snd out = Py.Ok ("Adding " +:+ "Ana" +:+ " to the remind list." +:+ Bot.nl) /\
  Bot.PING_TIMES_PER_PLAYER (fst out) = Bot.PING_TIMES_PER_PLAYER Examples.busy /\
  Bot.PING_LIST (fst out) = Bot.PING_LIST Examples.busy /\
  Bot.REMINDERS (fst out) = Bot.REMINDERS Examples.busy /\
  (existsb (Bot.named "Ana") Examples.roster = true ->
   ("Ana" ∉ Bot.PING_EXCLUDED_LIST (fst out)) /\
   Bot.PING_EXCLUDED_LIST (fst out)
   = List.filter (fun p => negb (String.eqb p "Ana"))
                 (Bot.PING_EXCLUDED_LIST Examples.busy)) /\
  (existsb (Bot.named "Ana") Examples.roster = false ->
   Bot.PING_EXCLUDED_LIST (fst out) = Bot.PING_EXCLUDED_LIST Examples.busy).
Proof.
  apply (ping_add_lifts_exclusion nat Examples.treasurer "Ana" Examples.roster
           Examples.busy).
  vm_compute. reflexivity.
Defined.

Lemma toggle_off_leaves_reminders_behind_witness :
  let w := Bot.exec_all Examples.plain_repr Examples.counting_service
             [ Bot.Ping Examples.treasurer "on" Examples.ana_bob_sheet Examples.roster;
               Bot.Ping Examples.treasurer "off" Examples.ana_bob_sheet Examples.roster;
               Bot.Ping Examples.treasurer "on" Examples.ana_bob_sheet Examples.roster ]
             (Bot.startup, []) in
  exists before after h1 h2,
    snd w = before ++ after /\
    (Ledger.name Examples.bob, h1) ∈ Bot.created before /\
    (Ledger.name Examples.bob, h2) ∈ Bot.created after /\
    ~ NoDup (map fst (Bot.created (snd w))).
Proof.
  apply (toggle_off_leaves_reminders_behind Examples.plain_repr nat
           Examples.counting_service Examples.treasurer Examples.ana_bob_sheet
           Examples.roster
           [Ledger.WithName Examples.ana; Ledger.WithName Examples.bob]
           Examples.bob).
  - discriminate.
  - vm_compute. reflexivity.
  - vm_compute. reflexivity.
  - vm_compute. right. left.
  - vm_compute. reflexivity.
Defined.

Lemma owe_shows_only_own_figures_witness :
  Bot.owe Examples.plain_repr (Some "Bob") Examples.ana_bob_sheet
  = Bot.owe Examples.plain_repr (Some "Bob") Examples.bob_sheet.
Proof.
  apply (owe_shows_only_own_figures Examples.plain_repr (Some "Bob")
           Examples.ana_bob_sheet Examples.bob_sheet
           [Ledger.WithName Examples.ana; Ledger.WithName Examples.bob]
           [Ledger.WithName Examples.bob]);
    vm_compute; reflexivity.
Defined.

Lemma breakdown_is_never_sent_witness :
  ((exists u, u ∈ Ledger.with_names [Ledger.WithName Examples.bob] /\
              Some (Ledger.name u) = Some "Bob") ->
   Bot.player_finance_breakdown (Some "Bob") Examples.bob_sheet
   = Py.Raise Py.AttributeError) /\
  ((forall u, u ∈ Ledger.with_names [Ledger.WithName Examples.bob] ->
              Some (Ledger.name u) <> Some "Bob") ->
   Bot.player_finance_breakdown (Some "Bob") Examples.bob_sheet
   = Py.Ok (Bot.not_in_the_book (Some "Bob"))) /\
  (forall reply,
     Bot.player_finance_breakdown (Some "Bob") Examples.bob_sheet = Py.Ok reply ->
     reply = Bot.not_in_the_book (Some "Bob")).
Proof.
  apply (breakdown_is_never_sent (Some "Bob") Examples.bob_sheet
           [Ledger.WithName Examples.bob]).
  vm_compute. reflexivity.
Defined.

Lemma no_minus_no_debt_witness :
  PyFloat.lt0 (S754_finite false 5429652300748554 (-42)) = false.
Proof.
  apply (no_minus_no_debt "€1,234.56" (S754_finite false 5429652300748554 (-42))).
  - apply (bool_decide_unpack _). vm_compute. exact I.
  - vm_compute. reflexivity.
Defined.
